(** * Interview assessment front end: warning engine, question navigation,
      final-report feedback.

    A shallow embedding of three pieces of the React front end:
    - [frontend/src/context/InterviewContext.js]: the session state, its
      reducer [interviewReducer] and the navigation helpers
      [nextQuestion] / [previousQuestion];
    - the interview room page ([InterviewRoom]): [analyzeWarnings], which
      turns the live metrics into the prioritised warning list;
    - [frontend/src/pages/Results.js]: the feedback bullets rendered from
      the final report.

    JavaScript numbers are IEEE binary64 values, so they are modelled by
    Rocq's primitive floats and compared with the IEEE predicates. *)

From Stdlib Require Import ZArith Lia Sorting.Sorted Sorting.Permutation.
From Stdlib Require Import Floats.PrimFloat Floats.SpecFloat Floats.FloatOps Floats.FloatAxioms.
From stdpp Require Import base option list strings gmap.
From stdpp Require Import pretty.
From Stdlib Require Import Strings.Ascii.

Set Warnings "-inexact-float".
Open Scope Z_scope.

(** ** JavaScript values and operators used by the pages *)

Module JS.

(** A JS [Number]. *)
Definition number : Set := float.

(** A possibly [undefined] property. *)
Definition ToBoolean (v : option bool) : bool :=
  match v with
  | Some b => b
  | None => false
  end.

(** [ToNumber]: [undefined] becomes [NaN]. *)
Definition ToNumber (v : option number) : number :=
  match v with
  | Some x => x
  | None => PrimFloat.nan
  end.

(** [a < b], [a > b], [a >= b] and [a === b] on numbers.  Every one of
    them is [false] as soon as an operand is [NaN]. *)
Definition lt (a b : number) : bool := PrimFloat.ltb a b.
Definition gt (a b : number) : bool := PrimFloat.ltb b a.
Definition ge (a b : number) : bool := PrimFloat.leb b a.
Definition strict_eq (a b : number) : bool := PrimFloat.eqb a b.

(** [arr.push(x)]. *)
Definition push {A} (arr : list A) (x : A) : list A := arr ++ [x].

(** [arr.sort(compareFn)].  ECMAScript requires the sort to be stable
    and, for a consistent comparator, to return the elements in
    comparator order; a stable insertion sort computes that result.
    [insert x l] puts [x] in front of the first element that does not
    compare strictly below it, so equal elements keep their order. *)
Fixpoint insert {A} (compareFn : A -> A -> Z) (x : A) (l : list A) : list A :=
  match l with
  | [] => [x]
  | y :: l' =>
      if compareFn x y <=? 0 then x :: y :: l'
      else y :: insert compareFn x l'
  end.

Definition sort {A} (arr : list A) (compareFn : A -> A -> Z) : list A :=
  foldr (insert compareFn) [] arr.

End JS.

(** ** The session context ([InterviewContext.js]) *)

Module Context.

(** One entry of [state.questions], as the setup page stores it. *)
Record Question := {
  question : string;
  category : string;
  difficulty : string
}.

(** [state.metrics].  [face_detected] is not part of [initialState]; it
    is [undefined] until the server sends it.  [emotionScores] is
    [None] when the property is missing or [null]. *)
Record Metrics := {
  face_detected : option bool;
  eyeContactPercentage : JS.number;
  confidenceScore : JS.number;
  speechClarity : JS.number;
  emotionScores : option (gmap string JS.number);
  warnings : list string
}.

(** The payload of a [metrics_update] event: any subset of the metrics'
    properties.  [None] is a property the payload does not carry. *)
Record MetricsPayload := {
  p_face_detected : option bool;
  p_eyeContactPercentage : option JS.number;
  p_confidenceScore : option JS.number;
  p_speechClarity : option JS.number;
  p_emotionScores : option (option (gmap string JS.number));
  p_warnings : option (list string)
}.

(** [final_report] of the end-interview response, as [Results.js]
    destructures it. *)
Record Feedback := {
  fb_strengths : list string;
  fb_improvements : list string
}.

Record FinalResults := {
  eye_contact_percentage : JS.number;
  confidence_score : JS.number;
  speech_clarity : JS.number;
  overall_score : JS.number;
  feedback : Feedback
}.

(** Browser objects the state only stores: a media stream and the
    socket, each known by an opaque handle. *)
Inductive MediaStream := mediaStream (handle : nat).
Inductive Socket := ioSocket (handle : nat).

Record State := {
  (* Session data *)
  sessionId : option string;
  candidateName : string;
  questions : list Question;
  currentQuestionIndex : Z;
  (* Interview status *)
  isInterviewActive : bool;
  isInterviewCompleted : bool;
  (* Real-time metrics *)
  metrics : Metrics;
  (* Media streams *)
  videoStream : option MediaStream;
  audioStream : option MediaStream;
  (* UI state *)
  isLoading : bool;
  error : option string;
  (* Results *)
  finalResults : option FinalResults;
  (* Socket connection *)
  socket : option Socket;
  isConnected : bool
}.

Definition initialState : State :=
  {| sessionId := None;
     candidateName := "";
     questions := [];
     currentQuestionIndex := 0;
     isInterviewActive := false;
     isInterviewCompleted := false;
     metrics :=
       {| face_detected := None;
          eyeContactPercentage := 0%float;
          confidenceScore := 0%float;
          speechClarity := 0%float;
          emotionScores := Some ∅;
          warnings := [] |};
     videoStream := None;
     audioStream := None;
     isLoading := false;
     error := None;
     finalResults := None;
     socket := None;
     isConnected := false |}.

(** The actions, one constructor per entry of [ACTIONS] with its
    payload; [OTHER] is any action whose [type] is none of them. *)
Inductive Action :=
| SET_SESSION_ID (payload : option string)
| SET_CANDIDATE_NAME (payload : string)
| SET_QUESTIONS (payload : list Question)
| SET_CURRENT_QUESTION (payload : Z)
| SET_INTERVIEW_ACTIVE (payload : bool)
| SET_INTERVIEW_COMPLETED (payload : bool)
| UPDATE_METRICS (payload : MetricsPayload)
| SET_VIDEO_STREAM (payload : option MediaStream)
| SET_AUDIO_STREAM (payload : option MediaStream)
| SET_LOADING (payload : bool)
| SET_ERROR (payload : option string)
| SET_FINAL_RESULTS (payload : option FinalResults)
| SET_SOCKET (payload : option Socket)
| SET_CONNECTED (payload : bool)
| RESET_STATE
| OTHER (type : string).

(** [{ ...state.metrics, ...action.payload }]: a property of the payload
    overrides the one of the metrics. *)
Definition spread {A} (old : A) (new : option A) : A :=
  match new with
  | Some v => v
  | None => old
  end.

Definition spreadMetrics (m : Metrics) (payload : MetricsPayload) : Metrics :=
  {| face_detected :=
       match p_face_detected payload with
       | Some b => Some b
       | None => face_detected m
       end;
     eyeContactPercentage := spread (eyeContactPercentage m) (p_eyeContactPercentage payload);
     confidenceScore := spread (confidenceScore m) (p_confidenceScore payload);
     speechClarity := spread (speechClarity m) (p_speechClarity payload);
     emotionScores := spread (emotionScores m) (p_emotionScores payload);
     warnings := spread (warnings m) (p_warnings payload) |}.

(** [{ ...state, field: value }], one setter per field the reducer
    writes. *)
Definition with_sessionId (state : State) v : State :=
  {| sessionId := v; candidateName := candidateName state;
     questions := questions state;
     currentQuestionIndex := currentQuestionIndex state;
     isInterviewActive := isInterviewActive state;
     isInterviewCompleted := isInterviewCompleted state;
     metrics := metrics state; videoStream := videoStream state;
     audioStream := audioStream state; isLoading := isLoading state;
     error := error state; finalResults := finalResults state;
     socket := socket state; isConnected := isConnected state |}.

Definition with_candidateName (state : State) v : State :=
  {| sessionId := sessionId state; candidateName := v;
     questions := questions state;
     currentQuestionIndex := currentQuestionIndex state;
     isInterviewActive := isInterviewActive state;
     isInterviewCompleted := isInterviewCompleted state;
     metrics := metrics state; videoStream := videoStream state;
     audioStream := audioStream state; isLoading := isLoading state;
     error := error state; finalResults := finalResults state;
     socket := socket state; isConnected := isConnected state |}.

Definition with_questions (state : State) v : State :=
  {| sessionId := sessionId state; candidateName := candidateName state;
     questions := v;
     currentQuestionIndex := currentQuestionIndex state;
     isInterviewActive := isInterviewActive state;
     isInterviewCompleted := isInterviewCompleted state;
     metrics := metrics state; videoStream := videoStream state;
     audioStream := audioStream state; isLoading := isLoading state;
     error := error state; finalResults := finalResults state;
     socket := socket state; isConnected := isConnected state |}.

Definition with_currentQuestionIndex (state : State) v : State :=
  {| sessionId := sessionId state; candidateName := candidateName state;
     questions := questions state;
     currentQuestionIndex := v;
     isInterviewActive := isInterviewActive state;
     isInterviewCompleted := isInterviewCompleted state;
     metrics := metrics state; videoStream := videoStream state;
     audioStream := audioStream state; isLoading := isLoading state;
     error := error state; finalResults := finalResults state;
     socket := socket state; isConnected := isConnected state |}.

Definition with_isInterviewActive (state : State) v : State :=
  {| sessionId := sessionId state; candidateName := candidateName state;
     questions := questions state;
     currentQuestionIndex := currentQuestionIndex state;
     isInterviewActive := v;
     isInterviewCompleted := isInterviewCompleted state;
     metrics := metrics state; videoStream := videoStream state;
     audioStream := audioStream state; isLoading := isLoading state;
     error := error state; finalResults := finalResults state;
     socket := socket state; isConnected := isConnected state |}.

Definition with_isInterviewCompleted (state : State) v : State :=
  {| sessionId := sessionId state; candidateName := candidateName state;
     questions := questions state;
     currentQuestionIndex := currentQuestionIndex state;
     isInterviewActive := isInterviewActive state;
     isInterviewCompleted := v;
     metrics := metrics state; videoStream := videoStream state;
     audioStream := audioStream state; isLoading := isLoading state;
     error := error state; finalResults := finalResults state;
     socket := socket state; isConnected := isConnected state |}.

Definition with_metrics (state : State) v : State :=
  {| sessionId := sessionId state; candidateName := candidateName state;
     questions := questions state;
     currentQuestionIndex := currentQuestionIndex state;
     isInterviewActive := isInterviewActive state;
     isInterviewCompleted := isInterviewCompleted state;
     metrics := v; videoStream := videoStream state;
     audioStream := audioStream state; isLoading := isLoading state;
     error := error state; finalResults := finalResults state;
     socket := socket state; isConnected := isConnected state |}.

Definition with_videoStream (state : State) v : State :=
  {| sessionId := sessionId state; candidateName := candidateName state;
     questions := questions state;
     currentQuestionIndex := currentQuestionIndex state;
     isInterviewActive := isInterviewActive state;
     isInterviewCompleted := isInterviewCompleted state;
     metrics := metrics state; videoStream := v;
     audioStream := audioStream state; isLoading := isLoading state;
     error := error state; finalResults := finalResults state;
     socket := socket state; isConnected := isConnected state |}.

Definition with_audioStream (state : State) v : State :=
  {| sessionId := sessionId state; candidateName := candidateName state;
     questions := questions state;
     currentQuestionIndex := currentQuestionIndex state;
     isInterviewActive := isInterviewActive state;
     isInterviewCompleted := isInterviewCompleted state;
     metrics := metrics state; videoStream := videoStream state;
     audioStream := v; isLoading := isLoading state;
     error := error state; finalResults := finalResults state;
     socket := socket state; isConnected := isConnected state |}.

Definition with_isLoading (state : State) v : State :=
  {| sessionId := sessionId state; candidateName := candidateName state;
     questions := questions state;
     currentQuestionIndex := currentQuestionIndex state;
     isInterviewActive := isInterviewActive state;
     isInterviewCompleted := isInterviewCompleted state;
     metrics := metrics state; videoStream := videoStream state;
     audioStream := audioStream state; isLoading := v;
     error := error state; finalResults := finalResults state;
     socket := socket state; isConnected := isConnected state |}.

Definition with_error (state : State) v : State :=
  {| sessionId := sessionId state; candidateName := candidateName state;
     questions := questions state;
     currentQuestionIndex := currentQuestionIndex state;
     isInterviewActive := isInterviewActive state;
     isInterviewCompleted := isInterviewCompleted state;
     metrics := metrics state; videoStream := videoStream state;
     audioStream := audioStream state; isLoading := isLoading state;
     error := v; finalResults := finalResults state;
     socket := socket state; isConnected := isConnected state |}.

Definition with_finalResults (state : State) v : State :=
  {| sessionId := sessionId state; candidateName := candidateName state;
     questions := questions state;
     currentQuestionIndex := currentQuestionIndex state;
     isInterviewActive := isInterviewActive state;
     isInterviewCompleted := isInterviewCompleted state;
     metrics := metrics state; videoStream := videoStream state;
     audioStream := audioStream state; isLoading := isLoading state;
     error := error state; finalResults := v;
     socket := socket state; isConnected := isConnected state |}.

Definition with_socket (state : State) v : State :=
  {| sessionId := sessionId state; candidateName := candidateName state;
     questions := questions state;
     currentQuestionIndex := currentQuestionIndex state;
     isInterviewActive := isInterviewActive state;
     isInterviewCompleted := isInterviewCompleted state;
     metrics := metrics state; videoStream := videoStream state;
     audioStream := audioStream state; isLoading := isLoading state;
     error := error state; finalResults := finalResults state;
     socket := v; isConnected := isConnected state |}.

Definition with_isConnected (state : State) v : State :=
  {| sessionId := sessionId state; candidateName := candidateName state;
     questions := questions state;
     currentQuestionIndex := currentQuestionIndex state;
     isInterviewActive := isInterviewActive state;
     isInterviewCompleted := isInterviewCompleted state;
     metrics := metrics state; videoStream := videoStream state;
     audioStream := audioStream state; isLoading := isLoading state;
     error := error state; finalResults := finalResults state;
     socket := socket state; isConnected := v |}.

(** [interviewReducer(state, action)]. *)
Definition interviewReducer (state : State) (action : Action) : State :=
  match action with
  | SET_SESSION_ID payload => with_sessionId state payload
  | SET_CANDIDATE_NAME payload => with_candidateName state payload
  | SET_QUESTIONS payload => with_questions state payload
  | SET_CURRENT_QUESTION payload => with_currentQuestionIndex state payload
  | SET_INTERVIEW_ACTIVE payload => with_isInterviewActive state payload
  | SET_INTERVIEW_COMPLETED payload => with_isInterviewCompleted state payload
  | UPDATE_METRICS payload =>
      with_metrics state (spreadMetrics (metrics state) payload)
  | SET_VIDEO_STREAM payload => with_videoStream state payload
  | SET_AUDIO_STREAM payload => with_audioStream state payload
  | SET_LOADING payload => with_isLoading state payload
  | SET_ERROR payload => with_error state payload
  | SET_FINAL_RESULTS payload => with_finalResults state payload
  | SET_SOCKET payload => with_socket state payload
  | SET_CONNECTED payload => with_isConnected state payload
  | RESET_STATE => initialState
  | OTHER _ => state
  end.

(** [utils.nextQuestion()] and [utils.previousQuestion()]: the state
    after the dispatch they may perform, and the boolean they return.
    [dispatch] runs the reducer on the provider's state. *)
Definition dispatch (state : State) (action : Action) : State :=
  interviewReducer state action.

Definition nextQuestion (state : State) : State * bool :=
  if currentQuestionIndex state <? Z.of_nat (length (questions state)) - 1 then
    (dispatch state (SET_CURRENT_QUESTION (currentQuestionIndex state + 1)), true)
  else (state, false).

Definition previousQuestion (state : State) : State * bool :=
  if currentQuestionIndex state >? 0 then
    (dispatch state (SET_CURRENT_QUESTION (currentQuestionIndex state - 1)), true)
  else (state, false).

End Context.

(** ** The interview room page *)

Module Room.
Import Context.

Inductive WarningType := Success | Warning | Error.
Inductive Category := Detection | Performance | Emotion.

Record WarningMessage := {
  type : WarningType;
  message : string;
  icon : string;
  priority : Z;
  category : Category
}.

(** [analyzeWarnings]: the array handed to [setWarningMessages], which
    is the callback's only effect.  [metrics] is [state.metrics], always
    an object (the reducer only ever spreads into it), so the optional
    chaining of [metrics?.face_detected] never short-circuits. *)
Definition analyzeWarnings (metrics : Metrics) : list WarningMessage :=
  let warnings : list WarningMessage := [] in
  (* First priority: is face detection working? *)
  if negb (JS.ToBoolean (face_detected metrics)) then
    JS.push warnings
      {| type := Error;
         message := "No face detected! Please position yourself in front of the camera.";
         icon := "👤"; priority := 1; category := Detection |}
  (* Second priority: are the eyes visible? *)
  else if JS.ToBoolean (face_detected metrics)
          && JS.strict_eq (eyeContactPercentage metrics) 0%float then
    JS.push warnings
      {| type := Error;
         message := "Eyes not visible! Please look directly at the camera.";
         icon := "👁️"; priority := 2; category := Detection |}
  else
    let warnings :=
      (* Third priority: face and eyes detected *)
      if JS.ToBoolean (face_detected metrics)
         && JS.gt (eyeContactPercentage metrics) 0%float then
        let warnings := JS.push warnings
          {| type := Success;
             message := "Face and eyes detected successfully!";
             icon := "✅"; priority := 0; category := Detection |} in
        let warnings :=
          if JS.lt (eyeContactPercentage metrics) 30%float then
            JS.push warnings
              {| type := Error;
                 message := "Low eye contact detected. Try to look at the camera more.";
                 icon := "👁️"; priority := 3; category := Performance |}
          else if JS.lt (eyeContactPercentage metrics) 50%float then
            JS.push warnings
              {| type := Warning;
                 message := "Eye contact could be improved. Focus on the camera.";
                 icon := "👁️"; priority := 4; category := Performance |}
          else
            JS.push warnings
              {| type := Success;
                 message := "Good eye contact maintained!";
                 icon := "👁️"; priority := 0; category := Performance |} in
        let warnings :=
          if JS.lt (confidenceScore metrics) 0.4%float then
            JS.push warnings
              {| type := Error;
                 message := "Low confidence detected. Try to sit up straight and maintain good posture.";
                 icon := "💪"; priority := 3; category := Performance |}
          else if JS.lt (confidenceScore metrics) 0.6%float then
            JS.push warnings
              {| type := Warning;
                 message := "Confidence could be improved. Maintain better posture.";
                 icon := "💪"; priority := 4; category := Performance |}
          else
            JS.push warnings
              {| type := Success;
                 message := "Good confidence and posture!";
                 icon := "💪"; priority := 0; category := Performance |} in
        let warnings :=
          if JS.lt (speechClarity metrics) 0.6%float then
            JS.push warnings
              {| type := Error;
                 message := "Speech clarity needs improvement. Speak more clearly and slowly.";
                 icon := "🗣️"; priority := 3; category := Performance |}
          else if JS.lt (speechClarity metrics) 0.8%float then
            JS.push warnings
              {| type := Warning;
                 message := "Speech clarity could be improved.";
                 icon := "🗣️"; priority := 4; category := Performance |}
          else
            JS.push warnings
              {| type := Success;
                 message := "Excellent speech clarity!";
                 icon := "🗣️"; priority := 0; category := Performance |} in
        (* Check for negative emotions *)
        match emotionScores metrics with
        | Some scores =>
            let negativeEmotions := ["angry"; "sad"; "fear"; "disgust"] in
            let '(warnings, hasNegativeEmotion) :=
              fold_left
                (fun '(warnings, hasNegativeEmotion) emotion =>
                   if JS.gt (JS.ToNumber (scores !! emotion)) 0.5%float then
                     (JS.push warnings
                        {| type := Warning;
                           message := "Detected " +:+ emotion +:+
                             " expression. Try to maintain a positive demeanor.";
                           icon := "😊"; priority := 4; category := Emotion |},
                      true)
                   else (warnings, hasNegativeEmotion))
                negativeEmotions (warnings, false) in
            if negb hasNegativeEmotion then
              JS.push warnings
                {| type := Success;
                   message := "Positive emotional state detected!";
                   icon := "😊"; priority := 0; category := Emotion |}
            else warnings
        | None => warnings
        end
      else warnings in
    (* Sort warnings by priority (0 = success, 1 = highest priority error) *)
    JS.sort warnings (fun a b => priority a - priority b).

End Room.

(** ** The results page ([Results.js]) *)

Module Results.
Import Context.

(** A conditional list item, [{cond && (<li>...</li>)}]. *)
Definition when {A} (cond : bool) (items : list A) : list A :=
  if cond then items else [].

(** The bullets of the "Strengths" list, in rendering order. *)
Definition strengths (finalResults : FinalResults) : list string :=
  when (JS.ge (overall_score finalResults) 80%float)
    ["• Excellent overall performance";
     "• Strong communication skills";
     "• Good preparation and confidence"]
  ++ when (JS.ge (eye_contact_percentage finalResults) 70%float)
    ["• Maintained good eye contact"]
  ++ when (JS.ge (confidence_score finalResults) 0.7%float)
    ["• Demonstrated high confidence"]
  ++ when (JS.ge (speech_clarity finalResults) 0.7%float)
    ["• Clear and articulate speech"].

(** The bullets of the "Areas for Improvement" list. *)
Definition improvements (finalResults : FinalResults) : list string :=
  when (JS.lt (eye_contact_percentage finalResults) 70%float)
    ["• Work on maintaining better eye contact"]
  ++ when (JS.lt (confidence_score finalResults) 0.7%float)
    ["• Build confidence through practice"]
  ++ when (JS.lt (speech_clarity finalResults) 0.7%float)
    ["• Improve speech clarity and articulation"]
  ++ when (JS.lt (overall_score finalResults) 80%float)
    ["• Continue practicing interview skills"].

End Results.

(** ** The context's helpers and API calls ([InterviewContext.js]) *)

Module Session.
Import Context.

(** [utils.getCurrentQuestion()]:
    [state.questions[state.currentQuestionIndex] || null].  An index
    outside the array reads [undefined]; [None] is the [null] returned. *)
Definition getCurrentQuestion (state : State) : option Question :=
  if currentQuestionIndex state <? 0 then None
  else questions state !! Z.to_nat (currentQuestionIndex state).

(** How an awaited request ends: the response data, or the message of
    the error thrown. *)
Inductive Response (A : Type) :=
| resolved (data : A)
| rejected (message : string).
Arguments resolved {A} data.
Arguments rejected {A} message.

(** [!state.sessionId]: [null] and the empty string are falsy. *)
Definition noSession (state : State) : bool :=
  match sessionId state with
  | Some id => String.eqb id ""
  | None => true
  end.

(** [api.startInterview(candidateName, questions)]: the dispatches it
    performs, applied in order to the provider's state.  [response] is
    the outcome of the POST, [session_id] its data. *)
Definition startInterview (state : State) (candidateName : string)
    (questions : list Question) (response : Response string) : State :=
  let state := dispatch state (SET_LOADING true) in
  match response with
  | resolved session_id =>
      let state := dispatch state (SET_SESSION_ID (Some session_id)) in
      let state := dispatch state (SET_CANDIDATE_NAME candidateName) in
      let state := dispatch state (SET_QUESTIONS questions) in
      dispatch state (SET_LOADING false)
  | rejected message =>
      let state := dispatch state (SET_LOADING false) in
      dispatch state (SET_ERROR (Some message))
  end.

(** [api.endInterview()]; [response] carries [final_report]. *)
Definition endInterview (state : State) (response : Response FinalResults) : State :=
  if noSession state then state
  else
    let state := dispatch state (SET_LOADING true) in
    match response with
    | resolved final_report =>
        let state := dispatch state (SET_FINAL_RESULTS (Some final_report)) in
        let state := dispatch state (SET_INTERVIEW_COMPLETED true) in
        let state := dispatch state (SET_INTERVIEW_ACTIVE false) in
        dispatch state (SET_LOADING false)
    | rejected message =>
        let state := dispatch state (SET_LOADING false) in
        dispatch state (SET_ERROR (Some message))
    end.

End Session.

(** ** The interview room page: what is rendered from the warnings *)

Module Panel.
Import Context Room.

(** [arr.slice(start, end)] for non-negative integer bounds, and
    [arr.some(pred)]. *)
Definition slice {A} (arr : list A) (start stop : nat) : list A :=
  take (stop - start) (drop start arr).

Definition some {A} (arr : list A) (pred : A -> bool) : bool := existsb pred arr.

(** [w.type === 'error'] and the like. *)
Definition type_is (t : WarningType) (w : WarningMessage) : bool :=
  match type w, t with
  | Success, Success | Warning, Warning | Error, Error => true
  | _, _ => false
  end.

(** [str.padStart(targetLength, padString)] for a pad string of one
    character, and [formatTime(seconds)].  [seconds] is the interview
    timer, a count of ticks; [pretty] writes a natural number in decimal,
    as [toString()] does. *)
Definition padStart (str : string) (targetLength : nat) (padChar : Ascii.ascii) : string :=
  String.string_of_list_ascii (replicate (targetLength - String.length str) padChar)
  +:+ str.

Definition formatTime (seconds : nat) : string :=
  let mins := (seconds / 60)%nat in
  let secs := (seconds mod 60)%nat in
  padStart (pretty mins) 2 "0"%char +:+ ":" +:+ padStart (pretty secs) 2 "0"%char.

(** [getPerformanceColor(score)] and [getPerformanceStatus(score)]. *)
Definition getPerformanceColor (score : JS.number) : string :=
  if JS.ge score 80%float then "text-green-600"
  else if JS.ge score 60%float then "text-yellow-600"
  else "text-red-600".

Definition getPerformanceStatus (score : JS.number) : string :=
  if JS.ge score 80%float then "Excellent"
  else if JS.ge score 60%float then "Good"
  else if JS.ge score 40%float then "Fair"
  else "Needs Improvement".

(** [getFaceDetectionStatus()]. *)
Record FaceStatus := {
  status : string;
  text : string;
  color : string;
  bgColor : string;
  icon : string
}.

Definition getFaceDetectionStatus (metrics : Metrics) : FaceStatus :=
  if negb (JS.ToBoolean (face_detected metrics)) then
    {| status := "no-face"; text := "No Face Detected";
       color := "text-red-500"; bgColor := "bg-red-500/20"; icon := "👤" |}
  else if JS.strict_eq (eyeContactPercentage metrics) 0%float then
    {| status := "no-eyes"; text := "Eyes Not Visible";
       color := "text-orange-500"; bgColor := "bg-orange-500/20"; icon := "👁️" |}
  else
    {| status := "face-detected"; text := "Face Detected";
       color := "text-green-500"; bgColor := "bg-green-500/20"; icon := "✅" |}.


Definition autoHide (prev : list WarningMessage) : list WarningMessage :=
  slice prev 0 2.

Definition overlay (warningMessages : list WarningMessage) : list WarningMessage :=
  slice warningMessages 0 3.

(** The header's status indicator and the panel's badge. *)
Definition statusLabel (warningMessages : list WarningMessage) : string :=
  if (length warningMessages =? 0)%nat then "All Good"
  else if some warningMessages (type_is Error) then "Critical Issues"
  else "Needs Attention".

Definition panelBadge (warningMessages : list WarningMessage) : string :=
  if (length warningMessages =? 0)%nat then "All Good"
  else if some warningMessages (λ w, priority w =? 1) then "Critical"
  else "Warning".

(** The chips of the warning summary: a count and its label for each
    priority present in the list. *)
Definition chip (warningMessages : list WarningMessage) (p : Z) (label : string)
    : list (nat * string) :=
  if some warningMessages (λ w, priority w =? p)
  then [(length (List.filter (λ w, priority w =? p) warningMessages), label)]
  else [].

Definition summaryChips (warningMessages : list WarningMessage) : list (nat * string) :=
  chip warningMessages 1 "Critical" ++ chip warningMessages 2 "High"
  ++ chip warningMessages 3 "Medium" ++ chip warningMessages 4 "Low".

(** The demo-mode effect: the [setWarningMessages] calls it makes, each
    with the delay of its timer (0 for the immediate one).  The timer
    callbacks read [warningMessages] of the render that ran the effect. *)
Definition demoMode (isInterviewActive : bool) (interviewTime : Z)
    (warningMessages : list WarningMessage) : list (Z * list WarningMessage) :=
  if isInterviewActive && (interviewTime >? 5) && (length warningMessages =? 0)%nat then
    let demoWarnings :=
      [ {| type := Error;
           message := "No face detected! Please position yourself in front of the camera.";
           Room.icon := "👤"; priority := 1; Room.category := Detection |} ] in
    let first := [(0, demoWarnings)] in
    let second :=
      if (length warningMessages =? 1)%nat
         && match warningMessages !! 0%nat with
            | Some w => priority w =? 1
            | None => false
            end
      then [(3000,
             [ {| type := Error;
                  message := "Eyes not visible! Please look directly at the camera.";
                  Room.icon := "👁️"; priority := 2; Room.category := Detection |} ])]
      else [] in
    let third :=
      if (length warningMessages =? 1)%nat
         && match warningMessages !! 0%nat with
            | Some w => priority w =? 2
            | None => false
            end
      then [(6000,
             [ {| type := Success;
                  message := "Face and eyes detected successfully!";
                  Room.icon := "✅"; priority := 0; Room.category := Detection |};
               {| type := Warning;
                  message := "Eye contact could be improved. Focus on the camera.";
                  Room.icon := "👁️"; priority := 4; Room.category := Performance |};
               {| type := Success;
                  message := "Good confidence and posture!";
                  Room.icon := "💪"; priority := 0; Room.category := Performance |} ])]
      else [] in
    first ++ second ++ third
  else [].

(** The navigation buttons of the question card, shown when there is a
    current question: [disabled={currentQuestionIndex === 0}] and
    [disabled={currentQuestionIndex === questions.length - 1}]. *)
Definition previousDisabled (state : State) : bool :=
  currentQuestionIndex state =? 0.

Definition nextDisabled (state : State) : bool :=
  currentQuestionIndex state =? Z.of_nat (length (questions state)) - 1.

End Panel.

(** ** The setup page ([InterviewSetup]) *)

Module Setup.
Import Context.

(** [toggleQuestion(question)]: the update applied to
    [selectedQuestions]. *)
Definition toggleQuestion (prev : list Question) (question : Question) : list Question :=
  let isSelected :=
    List.find (λ q, String.eqb (Context.question q) (Context.question question)) prev in
  match isSelected with
  | Some _ =>
      List.filter (λ q, negb (String.eqb (Context.question q) (Context.question question))) prev
  | None => prev ++ [question]
  end.

End Setup.

(** ** The results page: level and descriptions *)

Module Report.
Import Context.

Inductive Icon := Star | TrendingUp | CheckCircle | Target | AlertTriangle.

Record PerformanceLevel := {
  level : string;
  color : string;
  icon : Icon
}.

(** [getPerformanceLevel(score)]. *)
Definition getPerformanceLevel (score : JS.number) : PerformanceLevel :=
  if JS.ge score 90%float then
    {| level := "Excellent"; color := "text-green-600"; icon := Star |}
  else if JS.ge score 80%float then
    {| level := "Very Good"; color := "text-blue-600"; icon := TrendingUp |}
  else if JS.ge score 70%float then
    {| level := "Good"; color := "text-yellow-600"; icon := CheckCircle |}
  else if JS.ge score 60%float then
    {| level := "Fair"; color := "text-orange-600"; icon := Target |}
  else
    {| level := "Needs Improvement"; color := "text-red-600"; icon := AlertTriangle |}.

(** The sentence under each metric card. *)
Definition eyeContactText (finalResults : FinalResults) : string :=
  if JS.ge (eye_contact_percentage finalResults) 70%float then
    "Excellent eye contact maintained throughout the interview."
  else if JS.ge (eye_contact_percentage finalResults) 50%float then
    "Good eye contact, but could be improved."
  else "Eye contact needs significant improvement for better engagement.".

Definition confidenceText (finalResults : FinalResults) : string :=
  if JS.ge (confidence_score finalResults) 0.7%float then
    "High confidence demonstrated in responses."
  else if JS.ge (confidence_score finalResults) 0.5%float then
    "Moderate confidence, room for improvement."
  else "Confidence needs to be built through practice and preparation.".

Definition speechText (finalResults : FinalResults) : string :=
  if JS.ge (speech_clarity finalResults) 0.7%float then
    "Clear and articulate speech throughout."
  else if JS.ge (speech_clarity finalResults) 0.5%float then
    "Generally clear speech with some areas for improvement."
  else "Speech clarity needs improvement for better communication.".

End Report.

Import Context Room Results.

(** * Vocabulary of the properties *)

(** ** Sorting by a key *)

(** The comparator of [analyzeWarnings], for any numeric key, and the
    order it sorts into. *)
Definition by_key {A} (key : A -> Z) (a b : A) : Z := key a - key b.
Definition key_le {A} (key : A -> Z) (a b : A) : Prop := key a <= key b.

Definition by_priority : WarningMessage -> WarningMessage -> Z := by_key priority.
Definition priority_le : relation WarningMessage := key_le priority.

(** ** Entries of the warning list *)

#[local] Instance Category_eq_dec : EqDecision Category.
Proof. solve_decision. Defined.

#[local] Instance WarningType_eq_dec : EqDecision WarningType.
Proof. solve_decision. Defined.

(** The single entry of the two detection failures. *)
Definition is_detection_error (p : Z) (w : WarningMessage) : Prop :=
  type w = Error /\ priority w = p /\ Room.category w = Detection.

(** Priorities are never negative, and priority 0 is exactly Success. *)
Definition well_prioritised (w : WarningMessage) : Prop :=
  0 <= priority w /\ (type w = Success <-> priority w = 0).

(** The outcome of one threshold check on the value [x]: an entry of
    category Performance, an Error of priority 3 below [lo], a Warning of
    priority 4 below [hi], a Success (priority 0) otherwise. *)
Definition graded (x lo hi : JS.number) (w : WarningMessage) : Prop :=
  Room.category w = Performance
  /\ (JS.lt x lo = true -> type w = Error /\ priority w = 3)
  /\ (JS.lt x lo = false -> JS.lt x hi = true -> type w = Warning /\ priority w = 4)
  /\ (JS.lt x lo = false -> JS.lt x hi = false -> type w = Success /\ priority w = 0).

(** The fixed set of negative emotions, and the ones a score mapping
    puts strictly above 0.5 (a missing score is [undefined], never above). *)
Definition negative_set : list string := ["angry"; "sad"; "fear"; "disgust"].

Definition exceeds (scores : gmap string JS.number) (emotion : string) : Prop :=
  JS.gt (JS.ToNumber (scores !! emotion)) 0.5%float = true.

#[local] Instance exceeds_dec scores emotion : Decision (exceeds scores emotion).
Proof. unfold exceeds. apply _. Defined.

Definition flagged (scores : gmap string JS.number) : list string :=
  filter (exceeds scores) negative_set.

Definition emotion_warning (emotion : string) : WarningMessage :=
  {| type := Warning;
     message := "Detected " +:+ emotion +:+
       " expression. Try to maintain a positive demeanor.";
     icon := "😊"; priority := 4; category := Emotion |}.

Definition emotion_success : WarningMessage :=
  {| type := Success;
     message := "Positive emotional state detected!";
     icon := "😊"; priority := 0; category := Emotion |}.

(** What the emotion check appends to the list. *)
Definition emotion_entries (metrics : Metrics) : list WarningMessage :=
  match emotionScores metrics with
  | Some scores =>
      if decide (flagged scores = []) then [emotion_success]
      else emotion_warning <$> flagged scores
  | None => []
  end.

(** ** Question navigation *)

(** The index of the last question, [questions.length - 1]. *)
Definition lastIndex (state : State) : Z := Z.of_nat (length (questions state)) - 1.

Definition in_bounds (state : State) : Prop :=
  0 <= currentQuestionIndex state <= lastIndex state.

(** A run of clicks on the two navigation buttons. *)
Inductive Move := Next | Previous.

Definition move (state : State) (m : Move) : State :=
  match m with
  | Next => (nextQuestion state).1
  | Previous => (previousQuestion state).1
  end.

Definition navigate (state : State) (moves : list Move) : State :=
  fold_left move moves state.

(** ** Sample states *)

(** A face in front of the camera, eyes never seen. *)
Definition eyes_hidden : Metrics :=
  {| face_detected := Some true;
     eyeContactPercentage := 0%float;
     confidenceScore := 0.9%float;
     speechClarity := 0.9%float;
     emotionScores := Some {[ "angry" := 0.8%float ]};
     warnings := [] |}.

(** A session with face and eyes established: eye contact at 45%, low
    confidence, clear speech, a sad expression. *)
Definition established : Metrics :=
  {| face_detected := Some true;
     eyeContactPercentage := 45%float;
     confidenceScore := 0.3%float;
     speechClarity := 0.9%float;
     emotionScores := Some {[ "sad" := 0.7%float; "happy" := 0.2%float ]};
     warnings := [] |}.

(** The same five metrics, with a different server-side [warnings] list. *)
Definition established_other : Metrics :=
  {| face_detected := Some true;
     eyeContactPercentage := 45%float;
     confidenceScore := 0.3%float;
     speechClarity := 0.9%float;
     emotionScores := Some {[ "happy" := 0.2%float; "sad" := 0.7%float ]};
     warnings := ["Low confidence"] |}.

Definition no_emotion_mapping : Metrics :=
  {| face_detected := Some true;
     eyeContactPercentage := 80%float;
     confidenceScore := 0.5%float;
     speechClarity := 0.7%float;
     emotionScores := None;
     warnings := [] |}.

(** Three questions, the second one on screen. *)
Definition three_questions : State :=
  with_currentQuestionIndex
    (with_questions initialState
       [ {| question := "Tell me about yourself."; Context.category := "behavioral";
            difficulty := "easy" |};
         {| question := "What is a closure?"; Context.category := "technical";
            difficulty := "medium" |};
         {| question := "Describe a conflict you resolved."; Context.category := "behavioral";
            difficulty := "hard" |} ])
    1.

(** A face detected with a negative percentage: neither the "eyes not
    visible" test nor the "face and eyes detected" test holds. *)
Definition negative_percentage : Metrics :=
  {| face_detected := Some true;
     eyeContactPercentage := (-5)%float;
     confidenceScore := 0.9%float;
     speechClarity := 0.9%float;
     emotionScores := Some ∅;
     warnings := [] |}.

(** A final report with strong eye contact and speech, weak confidence. *)
Definition sample_report : FinalResults :=
  {| eye_contact_percentage := 82%float;
     confidence_score := 0.55%float;
     speech_clarity := 0.7%float;
     overall_score := 69%float;
     feedback := {| fb_strengths := []; fb_improvements := [] |} |}.

(** ** Vocabulary of the further properties *)

(** [x] is a number proper, not [NaN]. *)
Definition is_number (x : JS.number) : Prop := PrimFloat.eqb x x = true.

(** The fields of the state, and the ones an action writes. *)
Inductive Field :=
| FSessionId | FCandidateName | FQuestions | FCurrentQuestionIndex
| FIsInterviewActive | FIsInterviewCompleted | FMetrics
| FVideoStream | FAudioStream | FIsLoading | FError | FFinalResults
| FSocket | FIsConnected.

#[local] Instance Field_eq_dec : EqDecision Field.
Proof. solve_decision. Defined.



(** The payload that carries the properties of [p1] and [p2], those of
    [p2] winning: [{ ...p1, ...p2 }]. *)
Definition override {A} (first second : option A) : option A :=
  match second with
  | Some v => Some v
  | None => first
  end.

Definition mergePayload (p1 p2 : MetricsPayload) : MetricsPayload :=
  {| p_face_detected := override (p_face_detected p1) (p_face_detected p2);
     p_eyeContactPercentage :=
       override (p_eyeContactPercentage p1) (p_eyeContactPercentage p2);
     p_confidenceScore := override (p_confidenceScore p1) (p_confidenceScore p2);
     p_speechClarity := override (p_speechClarity p1) (p_speechClarity p2);
     p_emotionScores := override (p_emotionScores p1) (p_emotionScores p2);
     p_warnings := override (p_warnings p1) (p_warnings p2) |}.

(** A stream of [metrics_update] events, reduced in order. *)
Definition metricsUpdates (state : State) (payloads : list MetricsPayload) : State :=
  fold_left (λ st payload, interviewReducer st (UPDATE_METRICS payload)) payloads state.

(** The texts of a selection of questions. *)
Definition texts (selection : list Question) : list string :=
  Context.question <$> selection.

(** One bullet for a value of the report: never the strength and the
    improvement together, one of them for a number, none otherwise. *)
Definition exactly_one_bullet (finalResults : FinalResults) (value : JS.number)
    (strength improvement : string) : Prop :=
  ¬ (strength ∈ strengths finalResults /\ improvement ∈ improvements finalResults)
  /\ (is_number value ->
      strength ∈ strengths finalResults \/ improvement ∈ improvements finalResults)
  /\ (¬ is_number value ->
      (strength ∉ strengths finalResults) /\ (improvement ∉ improvements finalResults)).

(** Reading a clock text of the form MM:SS back into seconds. *)
Definition digit (c : Ascii.ascii) : nat := (Ascii.nat_of_ascii c - 48)%nat.

Definition readClock (text : string) : nat :=
  match String.list_ascii_of_string text with
  | [m1; m0; _; s1; s0] =>
      ((digit m1 * 10 + digit m0) * 60 + digit s1 * 10 + digit s0)%nat
  | _ => 0%nat
  end.

Definition clock_ok (seconds : nat) : bool :=
  (String.length (Panel.formatTime seconds) =? 5)%nat
  && (readClock (Panel.formatTime seconds) =? seconds)%nat.

(** Sample states of the further properties. *)

(** A running session on the three questions. *)
Definition running_session : State :=
  with_isInterviewActive (with_sessionId three_questions (Some "a1b2c3")) true.

(** Strong eye contact, everything else failing. *)
Definition only_eye_contact : Metrics :=
  {| face_detected := Some true;
     eyeContactPercentage := 90%float;
     confidenceScore := 0.1%float;
     speechClarity := 0.2%float;
     emotionScores := Some {[ "angry" := 0.9%float ]};
     warnings := [] |}.

(** Every check passing. *)
Definition all_good : Metrics :=
  {| face_detected := Some true;
     eyeContactPercentage := 95%float;
     confidenceScore := 0.9%float;
     speechClarity := 0.9%float;
     emotionScores := Some {[ "happy" := 0.9%float ]};
     warnings := [] |}.

(** Scores arriving before any face is seen. *)
Definition scores_only : MetricsPayload :=
  {| p_face_detected := None;
     p_eyeContactPercentage := Some 75%float;
     p_confidenceScore := Some 0.8%float;
     p_speechClarity := Some 0.9%float;
     p_emotionScores := Some (Some {[ "happy" := 0.6%float ]});
     p_warnings := None |}.

Definition face_lost : MetricsPayload :=
  {| p_face_detected := Some false;
     p_eyeContactPercentage := None;
     p_confidenceScore := None;
     p_speechClarity := None;
     p_emotionScores := None;
     p_warnings := None |}.

(** A report with every value at or above its threshold. *)
Definition strong_report : FinalResults :=
  {| eye_contact_percentage := 88%float;
     confidence_score := 0.7%float;
     speech_clarity := 0.95%float;
     overall_score := 84%float;
     feedback := {| fb_strengths := []; fb_improvements := [] |} |}.

(** * Sample runs *)

Definition summary (w : WarningMessage) : WarningType * Z * Category :=
  (type w, priority w, Room.category w).

Example run_initial :
  analyzeWarnings (metrics initialState)
  = [ {| type := Error;
         message := "No face detected! Please position yourself in front of the camera.";
         icon := "👤"; priority := 1; Room.category := Detection |} ].
Proof. reflexivity. Qed.

Example run_eyes_hidden :
  summary <$> analyzeWarnings eyes_hidden = [ (Error, 2, Detection) ].
Proof. reflexivity. Qed.

Example run_established :
  summary <$> analyzeWarnings established
  = [ (Success, 0, Detection); (Success, 0, Performance);
      (Error, 3, Performance); (Warning, 4, Performance); (Warning, 4, Emotion) ].
Proof. reflexivity. Qed.

Example run_established_messages :
  message <$> analyzeWarnings established
  = [ "Face and eyes detected successfully!";
      "Excellent speech clarity!";
      "Low confidence detected. Try to sit up straight and maintain good posture.";
      "Eye contact could be improved. Focus on the camera.";
      "Detected sad expression. Try to maintain a positive demeanor." ].
Proof. reflexivity. Qed.

Example run_no_emotion_mapping :
  summary <$> analyzeWarnings no_emotion_mapping
  = [ (Success, 0, Detection); (Success, 0, Performance);
      (Warning, 4, Performance); (Warning, 4, Performance) ].
Proof. reflexivity. Qed.

Example run_negative_percentage : analyzeWarnings negative_percentage = [].
Proof. reflexivity. Qed.

Example run_next_on_empty : nextQuestion initialState = (initialState, false).
Proof. reflexivity. Qed.

Example run_previous :
  previousQuestion three_questions = (with_currentQuestionIndex three_questions 0, true).
Proof. reflexivity. Qed.

Example run_report :
  strengths sample_report
  = [ "• Maintained good eye contact"; "• Clear and articulate speech" ]
  /\ improvements sample_report
  = [ "• Build confidence through practice"; "• Continue practicing interview skills" ].
Proof. split; reflexivity. Qed.

(** * Properties *)

(** ** The sort *)

Section sort_facts.
Context {A : Type} (key : A -> Z).

Lemma insert_perm (cmp : A -> A -> Z) x l : JS.insert cmp x l ≡ₚ x :: l.
Proof.
  induction l as [|y l IH]; simpl; [done|].
  destruct (cmp x y <=? 0); [done|].
  rewrite IH. apply Permutation_swap.
Qed.

Lemma sort_perm (cmp : A -> A -> Z) l : JS.sort l cmp ≡ₚ l.
Proof.
  unfold JS.sort. induction l as [|x l IH]; simpl; [done|].
  by rewrite insert_perm, IH.
Qed.

Lemma insert_sorted x l :
  StronglySorted (key_le key) l ->
  StronglySorted (key_le key) (JS.insert (by_key key) x l).
Proof.
  induction 1 as [|y l Hl IH Hy]; simpl.
  - repeat constructor.
  - unfold by_key at 1. destruct (Z.leb_spec (key x - key y) 0) as [Hle|Hgt].
    + constructor; [by constructor|].
      constructor; [unfold key_le; lia|].
      eapply Forall_impl; [exact Hy|]. unfold key_le. intros; lia.
    + constructor; [exact IH|].
      rewrite insert_perm. constructor; [unfold key_le; lia | exact Hy].
Qed.

Lemma sort_sorted l : StronglySorted (key_le key) (JS.sort l (by_key key)).
Proof.
  unfold JS.sort. induction l as [|x l IH]; simpl.
  - constructor.
  - by apply insert_sorted.
Qed.

(** Stability: elements with one and the same key keep their order. *)
Lemma insert_filter_key x l k :
  StronglySorted (key_le key) l ->
  filter (λ a, key a = k) (JS.insert (by_key key) x l)
  = filter (λ a, key a = k) (x :: l).
Proof.
  induction 1 as [|y l Hl IH Hy]; simpl; [done|].
  unfold by_key at 1. destruct (Z.leb_spec (key x - key y) 0) as [Hle|Hgt]; [done|].
  rewrite !filter_cons, IH, !filter_cons.
  destruct (decide (key y = k)) as [Hyk|Hyk], (decide (key x = k)) as [Hxk|Hxk];
    try done.
  lia.
Qed.

Lemma sort_filter_key l k :
  filter (λ a, key a = k) (JS.sort l (by_key key)) = filter (λ a, key a = k) l.
Proof.
  unfold JS.sort. induction l as [|x l IH]; simpl; [done|].
  rewrite insert_filter_key by apply sort_sorted.
  by rewrite !filter_cons, IH.
Qed.

End sort_facts.

(** ** Numbers and lists *)

(** A number above zero is not zero: [x > 0] excludes [x === 0]. *)
Lemma gt_zero_not_strict_eq (x : JS.number) :
  JS.gt x 0%float = true -> JS.strict_eq x 0%float = false.
Proof.
  unfold JS.gt, JS.strict_eq.
  rewrite FloatAxioms.ltb_spec, FloatAxioms.eqb_spec.
  change (Prim2SF 0%float) with (SpecFloat.S754_zero false).
  unfold SpecFloat.SFltb, SpecFloat.SFeqb.
  by destruct (Prim2SF x) as [[]|[]| |[] ? ?].
Qed.

Lemma filter_within {A} (P Q : A -> Prop)
    `{!∀ x, Decision (P x), !∀ x, Decision (Q x)} (l : list A) :
  Forall (λ x, P x -> Q x) l -> filter P (filter Q l) = filter P l.
Proof.
  induction 1 as [|x l Hx _ IH]; [done|].
  rewrite !filter_cons. destruct (decide (Q x)), (decide (P x)); try done.
  - by rewrite filter_cons_True, IH.
  - by rewrite filter_cons_False.
  - tauto.
Qed.

Lemma filter_none {A} (P : A -> Prop) `{!∀ x, Decision (P x)} (l : list A) :
  Forall (λ x, ¬ P x) l -> filter P l = [].
Proof.
  induction 1 as [|x l Hx _ IH]; [done|]. by rewrite filter_cons_False.
Qed.

Lemma filter_all {A} (P : A -> Prop) `{!∀ x, Decision (P x)} (l : list A) :
  Forall P l -> filter P l = l.
Proof.
  induction 1 as [|x l Hx _ IH]; [done|]. by rewrite filter_cons_True, IH.
Qed.

(** ** The warning engine, branch by branch *)

(** The two detection failures and the case of a percentage that is
    neither zero nor positive. *)
Lemma analyzeWarnings_no_face (metrics : Metrics) :
  JS.ToBoolean (face_detected metrics) = false ->
  exists w, analyzeWarnings metrics = [w] /\ is_detection_error 1 w.
Proof.
  intros Hface. unfold analyzeWarnings. rewrite Hface. simpl.
  eexists. split; [reflexivity|]. by repeat split.
Qed.

Lemma analyzeWarnings_no_eyes (metrics : Metrics) :
  JS.ToBoolean (face_detected metrics) = true ->
  JS.strict_eq (eyeContactPercentage metrics) 0%float = true ->
  exists w, analyzeWarnings metrics = [w] /\ is_detection_error 2 w.
Proof.
  intros Hface Heyes. unfold analyzeWarnings. rewrite Hface, Heyes. simpl.
  eexists. split; [reflexivity|]. by repeat split.
Qed.

Lemma analyzeWarnings_no_branch (metrics : Metrics) :
  JS.ToBoolean (face_detected metrics) = true ->
  JS.strict_eq (eyeContactPercentage metrics) 0%float = false ->
  JS.gt (eyeContactPercentage metrics) 0%float = false ->
  analyzeWarnings metrics = [].
Proof.
  intros Hface Heyes Hgt. unfold analyzeWarnings. by rewrite Hface, Heyes, Hgt.
Qed.

Lemma flagged_cons scores (emotion : string) (l : list string) :
  filter (exceeds scores) (emotion :: l)
  = if JS.gt (JS.ToNumber (scores !! emotion)) 0.5%float
    then emotion :: filter (exceeds scores) l
    else filter (exceeds scores) l.
Proof.
  rewrite filter_cons.
  destruct (decide (exceeds scores emotion)) as [H|H]; unfold exceeds in H.
  - by rewrite H.
  - apply not_true_is_false in H. by rewrite H.
Qed.

Lemma push_if3 {A} (b b' : bool) (ws : list A) (x y z : A) :
  (if b then JS.push ws x else if b' then JS.push ws y else JS.push ws z)
  = JS.push ws (if b then x else if b' then y else z).
Proof. by destruct b, b'. Qed.

Lemma graded_if (x lo hi : JS.number) (e w s : WarningMessage) :
  Room.category e = Performance -> type e = Error -> priority e = 3 ->
  Room.category w = Performance -> type w = Warning -> priority w = 4 ->
  Room.category s = Performance -> type s = Success -> priority s = 0 ->
  graded x lo hi (if JS.lt x lo then e else if JS.lt x hi then w else s).
Proof.
  intros. unfold graded.
  destruct (JS.lt x lo), (JS.lt x hi); repeat split; intros; congruence.
Qed.

(** With a face detected and a positive eye-contact percentage, the list
    is the sort of: the detection success, one entry per performance
    check, and the entries of the emotion check. *)
Lemma analyzeWarnings_established (metrics : Metrics) :
  JS.ToBoolean (face_detected metrics) = true ->
  JS.gt (eyeContactPercentage metrics) 0%float = true ->
  exists d e c s,
    analyzeWarnings metrics
    = JS.sort ([d; e; c; s] ++ emotion_entries metrics) by_priority
    /\ (type d = Success /\ priority d = 0 /\ Room.category d = Detection)
    /\ (graded (eyeContactPercentage metrics) 30%float 50%float e /\ icon e = "👁️")
    /\ (graded (confidenceScore metrics) 0.4%float 0.6%float c /\ icon c = "💪")
    /\ (graded (speechClarity metrics) 0.6%float 0.8%float s /\ icon s = "🗣️").
Proof.
  intros Hface Hgt. unfold analyzeWarnings.
  rewrite Hface, (gt_zero_not_strict_eq _ Hgt), Hgt. cbn [negb andb]. cbv zeta.
  rewrite !push_if3.
  do 4 eexists. split; [|split; [|split; [|split]]].
  - f_equal. unfold emotion_entries.
    destruct (emotionScores metrics) as [scores|]; [|reflexivity].
    unfold flagged, negative_set. rewrite !flagged_cons, filter_nil.
    cbn [fold_left].
    destruct (JS.gt (JS.ToNumber (scores !! "angry")) 0.5%float),
      (JS.gt (JS.ToNumber (scores !! "sad")) 0.5%float),
      (JS.gt (JS.ToNumber (scores !! "fear")) 0.5%float),
      (JS.gt (JS.ToNumber (scores !! "disgust")) 0.5%float); reflexivity.
  - done.
  - split; [by apply graded_if | by repeat case_match].
  - split; [by apply graded_if | by repeat case_match].
  - split; [by apply graded_if | by repeat case_match].
Qed.

Lemma detection_error_well_prioritised p w :
  0 < p -> is_detection_error p w -> well_prioritised w.
Proof.
  intros Hp (Ht & Hw & _). unfold well_prioritised. rewrite Ht, Hw.
  split; [lia|]. split; [done|lia].
Qed.

Lemma graded_well_prioritised x lo hi w : graded x lo hi w -> well_prioritised w.
Proof.
  intros (_ & He & Hw & Hs). unfold well_prioritised.
  destruct (JS.lt x lo).
  - destruct He as [-> ->]; [done|]. split; [lia|done].
  - destruct (JS.lt x hi).
    + destruct Hw as [-> ->]; [done..|]. split; [lia|done].
    + destruct Hs as [-> ->]; [done..|]. split; [lia|done].
Qed.

Lemma emotion_entries_spec (metrics : Metrics) :
  Forall (λ w, Room.category w = Emotion /\ well_prioritised w)
    (emotion_entries metrics).
Proof.
  unfold emotion_entries. destruct (emotionScores metrics) as [scores|]; [|constructor].
  case_decide.
  - by repeat constructor.
  - apply Forall_fmap, Forall_forall. intros em _. by repeat split.
Qed.

(** A list sorted by priority with the Success entries at priority 0
    starts with its Success entries. *)
Lemma successes_first (l : list WarningMessage) :
  StronglySorted priority_le l -> Forall well_prioritised l ->
  l = filter (λ w, type w = Success) l ++ filter (λ w, type w <> Success) l.
Proof.
  induction 1 as [|w l Hl IH Hw]; [done|].
  intros [[Hw0 Hws] Hall]%Forall_cons. specialize (IH Hall).
  rewrite !filter_cons. destruct (decide (type w = Success)) as [Hs|Hs].
  - rewrite decide_False by tauto. simpl. by f_equal.
  - rewrite decide_True by done.
    assert (Forall (λ w', type w' <> Success) l) as Hrest.
    { rewrite Forall_forall in Hw, Hall |- *. intros w' Hin Hs'.
      specialize (Hw w' Hin). destruct (Hall w' Hin) as [_ Hw's].
      apply Hw's in Hs'. unfold priority_le, key_le in Hw.
      apply Hs, Hws. lia. }
    rewrite (filter_none (λ w', type w' = Success)).
    + by rewrite filter_all.
    + eapply Forall_impl; [exact Hrest|]. naive_solver.
Qed.

(** Filtering the sorted list by category, in the established branch. *)
Lemma established_performance (d e c s : WarningMessage) (emo : list WarningMessage) :
  Room.category d = Detection ->
  Room.category e = Performance -> Room.category c = Performance ->
  Room.category s = Performance ->
  Forall (λ w, Room.category w = Emotion) emo ->
  filter (λ w, Room.category w = Performance)
    (JS.sort ([d; e; c; s] ++ emo) by_priority) ≡ₚ [e; c; s].
Proof.
  intros Hd He Hc Hs Hemo. rewrite sort_perm, filter_app.
  rewrite filter_cons_False by congruence.
  rewrite !filter_cons_True, filter_nil by done.
  rewrite filter_none; [done|].
  eapply Forall_impl; [exact Hemo|]. simpl. congruence.
Qed.

Lemma established_detection (d e c s : WarningMessage) (emo : list WarningMessage) :
  Room.category d = Detection ->
  Room.category e = Performance -> Room.category c = Performance ->
  Room.category s = Performance ->
  Forall (λ w, Room.category w = Emotion) emo ->
  filter (λ w, Room.category w = Detection)
    (JS.sort ([d; e; c; s] ++ emo) by_priority) = [d].
Proof.
  intros Hd He Hc Hs Hemo. apply Permutation_singleton_r.
  rewrite sort_perm, filter_app.
  rewrite filter_cons_True by done.
  rewrite !filter_cons_False, filter_nil by congruence.
  rewrite filter_none; [done|].
  eapply Forall_impl; [exact Hemo|]. simpl. congruence.
Qed.

Lemma established_emotion (d e c s : WarningMessage) (emo : list WarningMessage) :
  Room.category d = Detection ->
  Room.category e = Performance -> Room.category c = Performance ->
  Room.category s = Performance ->
  Forall (λ w, Room.category w = Emotion) emo ->
  filter (λ w, Room.category w = Emotion)
    (JS.sort ([d; e; c; s] ++ emo) by_priority) ≡ₚ emo.
Proof.
  intros Hd He Hc Hs Hemo. rewrite sort_perm, filter_app.
  rewrite !filter_cons_False, filter_nil by congruence.
  by rewrite filter_all.
Qed.

(** Entries with one priority come out in the order they were pushed. *)
Lemma established_emotion_stable (d e c s : WarningMessage)
    (emo : list WarningMessage) (p : Z) :
  Room.category d = Detection ->
  Room.category e = Performance -> Room.category c = Performance ->
  Room.category s = Performance ->
  Forall (λ w, Room.category w = Emotion /\ priority w = p) emo ->
  filter (λ w, Room.category w = Emotion)
    (JS.sort ([d; e; c; s] ++ emo) by_priority) = emo.
Proof.
  intros Hd He Hc Hs Hemo.
  assert (Forall (λ w, Room.category w = Emotion -> priority w = p)
            ([d; e; c; s] ++ emo)) as HL.
  { apply Forall_app. split.
    - repeat constructor; congruence.
    - eapply Forall_impl; [exact Hemo|]. simpl. tauto. }
  rewrite <- (filter_within _ (λ w, priority w = p)) by by rewrite sort_perm.
  unfold by_priority. rewrite (sort_filter_key priority).
  rewrite filter_within by done.
  rewrite filter_app, !filter_cons_False, filter_nil by congruence.
  apply filter_all. eapply Forall_impl; [exact Hemo|]. simpl. tauto.
Qed.

(** ** The warning engine: the claims *)

(** C1. When no face is detected ([face_detected] is false or was never
    sent), the warning list is a single entry, an Error of priority 1 in
    category Detection; no Performance or Emotion entry is produced. *)
Theorem C1_no_face_single_error (metrics : Metrics) :
  JS.ToBoolean (face_detected metrics) = false ->
  (exists w, analyzeWarnings metrics = [w] /\ is_detection_error 1 w)
  /\ Forall (λ w, Room.category w <> Performance /\ Room.category w <> Emotion)
       (analyzeWarnings metrics).
Proof.
  intros Hface.
  destruct (analyzeWarnings_no_face _ Hface) as (w & Hw & Herr).
  split; [by exists w|].
  rewrite Hw. apply Forall_singleton.
  destruct Herr as (_ & _ & ->). done.
Qed.

(** The metrics of a session that has received no sample yet. *)
Lemma C1_witness :
  JS.ToBoolean (face_detected (metrics initialState)) = false
  /\ (exists w, analyzeWarnings (metrics initialState) = [w] /\ is_detection_error 1 w)
  /\ Forall (λ w, Room.category w <> Performance /\ Room.category w <> Emotion)
       (analyzeWarnings (metrics initialState)).
Proof.
  split; [reflexivity|].
  apply (C1_no_face_single_error (metrics initialState)). reflexivity.
Defined.

(** C2. When a face is detected and the eye-contact percentage is 0, the
    warning list is a single entry, an Error of priority 2 in category
    Detection; no Performance or Emotion entry is produced. *)
Theorem C2_no_eyes_single_error (metrics : Metrics) :
  JS.ToBoolean (face_detected metrics) = true ->
  JS.strict_eq (eyeContactPercentage metrics) 0%float = true ->
  (exists w, analyzeWarnings metrics = [w] /\ is_detection_error 2 w)
  /\ Forall (λ w, Room.category w <> Performance /\ Room.category w <> Emotion)
       (analyzeWarnings metrics).
Proof.
  intros Hface Heyes.
  destruct (analyzeWarnings_no_eyes _ Hface Heyes) as (w & Hw & Herr).
  split; [by exists w|].
  rewrite Hw. apply Forall_singleton.
  destruct Herr as (_ & _ & ->). done.
Qed.

Lemma C2_witness :
  (exists w, analyzeWarnings eyes_hidden = [w] /\ is_detection_error 2 w)
  /\ Forall (λ w, Room.category w <> Performance /\ Room.category w <> Emotion)
       (analyzeWarnings eyes_hidden).
Proof.
  apply (C2_no_eyes_single_error eyes_hidden); reflexivity.
Defined.

(** C3. The warning list is always sorted by ascending priority, the
    early returns included; priorities are non-negative and priority 0
    is exactly the Success entries, so the Success entries come first. *)
Theorem C3_sorted_by_priority (metrics : Metrics) :
  StronglySorted priority_le (analyzeWarnings metrics)
  /\ Forall well_prioritised (analyzeWarnings metrics)
  /\ analyzeWarnings metrics
     = filter (λ w, type w = Success) (analyzeWarnings metrics)
       ++ filter (λ w, type w <> Success) (analyzeWarnings metrics).
Proof.
  assert (StronglySorted priority_le (analyzeWarnings metrics)
          /\ Forall well_prioritised (analyzeWarnings metrics)) as [Hs Hp].
  { destruct (JS.ToBoolean (face_detected metrics)) eqn:Hface.
    - destruct (JS.strict_eq (eyeContactPercentage metrics) 0%float) eqn:Heyes.
      + destruct (analyzeWarnings_no_eyes _ Hface Heyes) as (w & -> & Hw).
        split; [by repeat constructor|].
        apply Forall_singleton.
        apply (detection_error_well_prioritised 2); [lia|done].
      + destruct (JS.gt (eyeContactPercentage metrics) 0%float) eqn:Hgt.
        * destruct (analyzeWarnings_established _ Hface Hgt)
            as (d & e & c & s & -> & (Hd & Hd0 & _) & [He _] & [Hc _] & [Hsp _]).
          split; [apply sort_sorted|].
          rewrite sort_perm. repeat apply Forall_cons_2.
          -- unfold well_prioritised. rewrite Hd, Hd0. by repeat split.
          -- by eapply graded_well_prioritised.
          -- by eapply graded_well_prioritised.
          -- by eapply graded_well_prioritised.
          -- eapply Forall_impl; [apply emotion_entries_spec|]. by intros ? [].
        * rewrite analyzeWarnings_no_branch by done. by split; constructor.
    - destruct (analyzeWarnings_no_face _ Hface) as (w & -> & Hw).
      split; [by repeat constructor|].
      apply Forall_singleton.
      apply (detection_error_well_prioritised 1); [lia|done]. }
  split; [done|]. split; [done|]. by apply successes_first.
Qed.

(** C4. With a face detected and a positive eye-contact percentage, the
    Performance entries of the list are exactly three, one per check:
    eye contact graded at 30 and 50, confidence at 0.4 and 0.6, speech
    clarity at 0.6 and 0.8; below the first threshold the entry is an
    Error of priority 3, below the second a Warning of priority 4,
    otherwise a Success. *)
Theorem C4_performance_checks (metrics : Metrics) :
  JS.ToBoolean (face_detected metrics) = true ->
  JS.gt (eyeContactPercentage metrics) 0%float = true ->
  exists e c s,
    filter (λ w, Room.category w = Performance) (analyzeWarnings metrics) ≡ₚ [e; c; s]
    /\ (graded (eyeContactPercentage metrics) 30%float 50%float e /\ icon e = "👁️")
    /\ (graded (confidenceScore metrics) 0.4%float 0.6%float c /\ icon c = "💪")
    /\ (graded (speechClarity metrics) 0.6%float 0.8%float s /\ icon s = "🗣️").
Proof.
  intros Hface Hgt.
  destruct (analyzeWarnings_established _ Hface Hgt)
    as (d & e & c & s & -> & (_ & _ & Hd) & He & Hc & Hs).
  exists e, c, s. split; [|done].
  apply established_performance; try done.
  - apply He.
  - apply Hc.
  - apply Hs.
  - eapply Forall_impl; [apply emotion_entries_spec|]. by intros ? [].
Qed.

Lemma C4_witness :
  exists e c s,
    filter (λ w, Room.category w = Performance) (analyzeWarnings established) ≡ₚ [e; c; s]
    /\ (graded 45%float 30%float 50%float e /\ icon e = "👁️")
    /\ (graded 0.3%float 0.4%float 0.6%float c /\ icon c = "💪")
    /\ (graded 0.9%float 0.6%float 0.8%float s /\ icon s = "🗣️").
Proof.
  apply (C4_performance_checks established); reflexivity.
Defined.

(** C5. With face and eyes established and an emotion-score mapping
    present, the Emotion entries of the list are one Warning of
    priority 4 per negative emotion (angry, sad, fear, disgust, in that
    order) scored strictly above 0.5, and a single Success entry when no
    negative emotion is above 0.5. *)
Theorem C5_emotion_check (metrics : Metrics) (scores : gmap string JS.number) :
  JS.ToBoolean (face_detected metrics) = true ->
  JS.gt (eyeContactPercentage metrics) 0%float = true ->
  emotionScores metrics = Some scores ->
  (flagged scores <> [] ->
     filter (λ w, Room.category w = Emotion) (analyzeWarnings metrics)
     = emotion_warning <$> flagged scores)
  /\ (flagged scores = [] ->
     filter (λ w, Room.category w = Emotion) (analyzeWarnings metrics)
     = [emotion_success])
  /\ (forall emotion,
        type (emotion_warning emotion) = Warning
        /\ priority (emotion_warning emotion) = 4
        /\ Room.category (emotion_warning emotion) = Emotion)
  /\ type emotion_success = Success
  /\ Room.category emotion_success = Emotion.
Proof.
  intros Hface Hgt Hscores.
  destruct (analyzeWarnings_established _ Hface Hgt)
    as (d & e & c & s & -> & (_ & _ & Hd) & [He _] & [Hc _] & [Hs _]).
  destruct He as [He _], Hc as [Hc _], Hs as [Hs _].
  unfold emotion_entries. rewrite Hscores.
  split; [|split; [|done]].
  - intros Hsome. rewrite decide_False by done.
    apply (established_emotion_stable _ _ _ _ _ 4); try done.
    apply Forall_fmap, Forall_forall. by intros.
  - intros Hnone. rewrite decide_True by done.
    apply (established_emotion_stable _ _ _ _ _ 0); try done.
    by repeat constructor.
Qed.

Lemma C5_witness :
  filter (λ w, Room.category w = Emotion) (analyzeWarnings established)
  = [emotion_warning "sad"].
Proof.
  refine (proj1 (C5_emotion_check established
                   {[ "sad" := 0.7%float; "happy" := 0.2%float ]} _ _ _) _);
    [reflexivity..|].
  vm_compute. discriminate.
Defined.

(** C10. With face and eyes established but no emotion-score mapping,
    the list has no Emotion entry at all, while the detection success
    and the three performance entries are still produced. *)
Theorem C10_no_emotion_mapping (metrics : Metrics) :
  JS.ToBoolean (face_detected metrics) = true ->
  JS.gt (eyeContactPercentage metrics) 0%float = true ->
  emotionScores metrics = None ->
  filter (λ w, Room.category w = Emotion) (analyzeWarnings metrics) = []
  /\ (exists d,
        filter (λ w, Room.category w = Detection) (analyzeWarnings metrics) = [d]
        /\ type d = Success)
  /\ (exists e c s,
        filter (λ w, Room.category w = Performance) (analyzeWarnings metrics)
          ≡ₚ [e; c; s]
        /\ graded (eyeContactPercentage metrics) 30%float 50%float e
        /\ graded (confidenceScore metrics) 0.4%float 0.6%float c
        /\ graded (speechClarity metrics) 0.6%float 0.8%float s)
  /\ length (analyzeWarnings metrics) = 4%nat.
Proof.
  intros Hface Hgt Hnone.
  destruct (analyzeWarnings_established _ Hface Hgt)
    as (d & e & c & s & -> & (Hd & _ & Hdc) & [He _] & [Hc _] & [Hs _]).
  assert (emotion_entries metrics = []) as -> by (unfold emotion_entries; by rewrite Hnone).
  pose proof He as [Hec _]. pose proof Hc as [Hcc _]. pose proof Hs as [Hsc _].
  split; [|split; [|split]].
  - apply Permutation_nil_r. by rewrite established_emotion.
  - exists d. split; [|done]. by apply established_detection.
  - exists e, c, s. split; [|done]. by apply established_performance.
  - by rewrite sort_perm.
Qed.

Lemma C10_witness :
  filter (λ w, Room.category w = Emotion) (analyzeWarnings no_emotion_mapping) = []
  /\ (exists d,
        filter (λ w, Room.category w = Detection) (analyzeWarnings no_emotion_mapping) = [d]
        /\ type d = Success)
  /\ (exists e c s,
        filter (λ w, Room.category w = Performance) (analyzeWarnings no_emotion_mapping)
          ≡ₚ [e; c; s]
        /\ graded 80%float 30%float 50%float e
        /\ graded 0.5%float 0.4%float 0.6%float c
        /\ graded 0.7%float 0.6%float 0.8%float s)
  /\ length (analyzeWarnings no_emotion_mapping) = 4%nat.
Proof.
  apply (C10_no_emotion_mapping no_emotion_mapping); reflexivity.
Defined.

(** C6. The warning list is a function of five metrics only: two
    aggregate states with the same face-detected flag, eye-contact
    percentage, confidence score, speech clarity and emotion scores get
    the same list, entry for entry, whatever else the states hold. *)
Theorem C6_deterministic (m1 m2 : Metrics) :
  face_detected m1 = face_detected m2 ->
  eyeContactPercentage m1 = eyeContactPercentage m2 ->
  confidenceScore m1 = confidenceScore m2 ->
  speechClarity m1 = speechClarity m2 ->
  emotionScores m1 = emotionScores m2 ->
  analyzeWarnings m1 = analyzeWarnings m2.
Proof.
  destruct m1, m2. simpl. intros -> -> -> -> ->. reflexivity.
Qed.

Lemma C6_witness : analyzeWarnings established = analyzeWarnings established_other.
Proof.
  apply (C6_deterministic established established_other); reflexivity.
Defined.

(** ** The session state *)

(** C9. Setting the current question index writes that field and no
    other: the new index is the payload, every other field of the state
    is the one of the state before. *)
Theorem C9_set_current_question_frame (state : State) (payload : Z) :
  currentQuestionIndex (interviewReducer state (SET_CURRENT_QUESTION payload)) = payload
  /\ sessionId (interviewReducer state (SET_CURRENT_QUESTION payload)) = sessionId state
  /\ candidateName (interviewReducer state (SET_CURRENT_QUESTION payload)) = candidateName state
  /\ questions (interviewReducer state (SET_CURRENT_QUESTION payload)) = questions state
  /\ isInterviewActive (interviewReducer state (SET_CURRENT_QUESTION payload))
     = isInterviewActive state
  /\ isInterviewCompleted (interviewReducer state (SET_CURRENT_QUESTION payload))
     = isInterviewCompleted state
  /\ metrics (interviewReducer state (SET_CURRENT_QUESTION payload)) = metrics state
  /\ videoStream (interviewReducer state (SET_CURRENT_QUESTION payload)) = videoStream state
  /\ audioStream (interviewReducer state (SET_CURRENT_QUESTION payload)) = audioStream state
  /\ isLoading (interviewReducer state (SET_CURRENT_QUESTION payload)) = isLoading state
  /\ Context.error (interviewReducer state (SET_CURRENT_QUESTION payload)) = Context.error state
  /\ finalResults (interviewReducer state (SET_CURRENT_QUESTION payload)) = finalResults state
  /\ socket (interviewReducer state (SET_CURRENT_QUESTION payload)) = socket state
  /\ isConnected (interviewReducer state (SET_CURRENT_QUESTION payload)) = isConnected state.
Proof. by repeat split. Qed.

Lemma nextQuestion_spec (state : State) :
  (currentQuestionIndex state < lastIndex state
   /\ nextQuestion state
      = (with_currentQuestionIndex state (currentQuestionIndex state + 1), true))
  \/ (lastIndex state <= currentQuestionIndex state
      /\ nextQuestion state = (state, false)).
Proof.
  unfold nextQuestion, lastIndex.
  destruct (Z.ltb_spec (currentQuestionIndex state)
              (Z.of_nat (length (questions state)) - 1)); [left|right]; done.
Qed.

Lemma previousQuestion_spec (state : State) :
  (0 < currentQuestionIndex state
   /\ previousQuestion state
      = (with_currentQuestionIndex state (currentQuestionIndex state - 1), true))
  \/ (currentQuestionIndex state <= 0
      /\ previousQuestion state = (state, false)).
Proof.
  unfold previousQuestion. rewrite Z.gtb_ltb.
  destruct (Z.ltb_spec 0 (currentQuestionIndex state)); [left|right]; done.
Qed.

Lemma move_in_bounds (state : State) (m : Move) :
  in_bounds state -> in_bounds (move state m).
Proof.
  unfold in_bounds. intros Hb. destruct m; simpl.
  - destruct (nextQuestion_spec state) as [[? ->]|[? ->]]; [|done].
    unfold lastIndex in *. simpl. lia.
  - destruct (previousQuestion_spec state) as [[? ->]|[? ->]]; [|done].
    unfold lastIndex in *. simpl. lia.
Qed.

Lemma move_questions (state : State) (m : Move) :
  questions (move state m) = questions state.
Proof.
  destruct m; simpl.
  - by destruct (nextQuestion_spec state) as [[? ->]|[? ->]].
  - by destruct (previousQuestion_spec state) as [[? ->]|[? ->]].
Qed.

Lemma navigate_in_bounds (moves : list Move) (state : State) :
  in_bounds state -> in_bounds (navigate state moves).
Proof.
  unfold navigate. revert state.
  induction moves as [|m moves IH]; intros state Hb; simpl; [done|].
  by apply IH, move_in_bounds.
Qed.

(** C7. Question navigation is clamped and reports whether it moved.
    [nextQuestion] returns true exactly when the index is strictly below
    [questions.length - 1], and then the index is one more;
    [previousQuestion] returns true exactly when the index is strictly
    above 0, and then the index is one less; otherwise the state is
    unchanged.  The questions are never touched, so an index within
    [0, questions.length - 1] stays there through any run of moves. *)
Theorem C7_navigation_clamped (state : State) :
  ((nextQuestion state).2 = true <-> currentQuestionIndex state < lastIndex state)
  /\ ((nextQuestion state).2 = true ->
      (nextQuestion state).1
      = with_currentQuestionIndex state (currentQuestionIndex state + 1))
  /\ ((nextQuestion state).2 = false -> (nextQuestion state).1 = state)
  /\ ((previousQuestion state).2 = true <-> 0 < currentQuestionIndex state)
  /\ ((previousQuestion state).2 = true ->
      (previousQuestion state).1
      = with_currentQuestionIndex state (currentQuestionIndex state - 1))
  /\ ((previousQuestion state).2 = false -> (previousQuestion state).1 = state)
  /\ (forall moves,
        questions (navigate state moves) = questions state
        /\ (in_bounds state -> in_bounds (navigate state moves))).
Proof.
  split; [|split; [|split; [|split; [|split; [|split]]]]].
  - destruct (nextQuestion_spec state) as [[? ->]|[? ->]]; simpl;
      (split; [done || congruence | done || lia]).
  - destruct (nextQuestion_spec state) as [[? ->]|[? ->]]; simpl; [done|congruence].
  - destruct (nextQuestion_spec state) as [[? ->]|[? ->]]; simpl; [congruence|done].
  - destruct (previousQuestion_spec state) as [[? ->]|[? ->]]; simpl;
      (split; [done || congruence | done || lia]).
  - destruct (previousQuestion_spec state) as [[? ->]|[? ->]]; simpl; [done|congruence].
  - destruct (previousQuestion_spec state) as [[? ->]|[? ->]]; simpl; [congruence|done].
  - intros moves. split; [|apply navigate_in_bounds].
    unfold navigate. revert state.
    induction moves as [|m moves IH]; intros state; simpl; [done|].
    by rewrite IH, move_questions.
Qed.

Lemma C7_witness :
  in_bounds three_questions
  /\ nextQuestion three_questions = (with_currentQuestionIndex three_questions 2, true)
  /\ nextQuestion (with_currentQuestionIndex three_questions 2)
     = (with_currentQuestionIndex three_questions 2, false)
  /\ in_bounds (navigate three_questions [Next; Next; Next; Previous; Next]).
Proof.
  assert (in_bounds three_questions) as Hb by (by vm_compute).
  split; [exact Hb|]. split; [reflexivity|]. split; [reflexivity|].
  destruct (C7_navigation_clamped three_questions) as (_ & _ & _ & _ & _ & _ & Hnav).
  apply Hnav, Hb.
Defined.

(** ** The results page *)

(** Membership in a conditional item list, with the membership in the
    items themselves left to computation. *)
Lemma elem_of_when `{EqDecision A} (cond : bool) (items : list A) (x : A) :
  x ∈ when cond items <-> cond = true /\ bool_decide (x ∈ items) = true.
Proof.
  rewrite bool_decide_eq_true. destruct cond; simpl.
  - tauto.
  - rewrite elem_of_nil. intuition discriminate.
Qed.

Ltac decide_members :=
  repeat match goal with
    | |- context [bool_decide ?P] =>
        let b := eval vm_compute in (bool_decide P) in
        change (bool_decide P) with b
    end.

Lemma strengths_elem (finalResults : FinalResults) (bullet : string) :
  bullet ∈ strengths finalResults <->
    (JS.ge (overall_score finalResults) 80%float = true
     /\ bool_decide (bullet ∈ ["• Excellent overall performance";
                               "• Strong communication skills";
                               "• Good preparation and confidence"]) = true)
    \/ (JS.ge (eye_contact_percentage finalResults) 70%float = true
        /\ bool_decide (bullet ∈ ["• Maintained good eye contact"]) = true)
    \/ (JS.ge (confidence_score finalResults) 0.7%float = true
        /\ bool_decide (bullet ∈ ["• Demonstrated high confidence"]) = true)
    \/ (JS.ge (speech_clarity finalResults) 0.7%float = true
        /\ bool_decide (bullet ∈ ["• Clear and articulate speech"]) = true).
Proof. unfold strengths. by rewrite !elem_of_app, !elem_of_when. Qed.

Lemma improvements_elem (finalResults : FinalResults) (bullet : string) :
  bullet ∈ improvements finalResults <->
    (JS.lt (eye_contact_percentage finalResults) 70%float = true
     /\ bool_decide (bullet ∈ ["• Work on maintaining better eye contact"]) = true)
    \/ (JS.lt (confidence_score finalResults) 0.7%float = true
        /\ bool_decide (bullet ∈ ["• Build confidence through practice"]) = true)
    \/ (JS.lt (speech_clarity finalResults) 0.7%float = true
        /\ bool_decide (bullet ∈ ["• Improve speech clarity and articulation"]) = true)
    \/ (JS.lt (overall_score finalResults) 80%float = true
        /\ bool_decide (bullet ∈ ["• Continue practicing interview skills"]) = true).
Proof. unfold improvements. by rewrite !elem_of_app, !elem_of_when. Qed.

(** C8. The feedback bullets follow fixed thresholds on the final
    report: the eye-contact strength bullet is shown exactly when the
    percentage is at least 70 and the improvement bullet exactly when it
    is below 70; likewise for confidence and speech clarity at 0.7. *)
Theorem C8_feedback_thresholds (finalResults : FinalResults) :
  ("• Maintained good eye contact" ∈ strengths finalResults
     <-> JS.ge (eye_contact_percentage finalResults) 70%float = true)
  /\ ("• Work on maintaining better eye contact" ∈ improvements finalResults
     <-> JS.lt (eye_contact_percentage finalResults) 70%float = true)
  /\ ("• Demonstrated high confidence" ∈ strengths finalResults
     <-> JS.ge (confidence_score finalResults) 0.7%float = true)
  /\ ("• Build confidence through practice" ∈ improvements finalResults
     <-> JS.lt (confidence_score finalResults) 0.7%float = true)
  /\ ("• Clear and articulate speech" ∈ strengths finalResults
     <-> JS.ge (speech_clarity finalResults) 0.7%float = true)
  /\ ("• Improve speech clarity and articulation" ∈ improvements finalResults
     <-> JS.lt (speech_clarity finalResults) 0.7%float = true).
Proof.
  rewrite !strengths_elem, !improvements_elem. decide_members.
  intuition congruence.
Qed.

(** * Further properties *)

(** ** Order of numbers *)

Ltac compare_cases :=
  repeat match goal with
    | H : context [Z.compare ?x ?y] |- _ => destruct (Z.compare_spec x y)
    | |- context [Z.compare ?x ?y] => destruct (Z.compare_spec x y)
    | H : context [Pos.compare_cont Eq ?x ?y] |- _ =>
        change (Pos.compare_cont Eq x y) with (Pos.compare x y) in *;
        destruct (Pos.compare_spec x y)
    | |- context [Pos.compare_cont Eq ?x ?y] =>
        change (Pos.compare_cont Eq x y) with (Pos.compare x y) in *;
        destruct (Pos.compare_spec x y)
    end.

Lemma SFcompare_antisym (a b : spec_float) :
  SFcompare b a = CompOpp <$> SFcompare a b.
Proof.
  destruct a as [[]|[]| |[] ma ea], b as [[]|[]| |[] mb eb]; simpl; try reflexivity;
    compare_cases; simpl; try reflexivity; try lia.
Qed.

Lemma SFleb_trans (a b c : spec_float) :
  SFleb a b = true -> SFleb b c = true -> SFleb a c = true.
Proof.
  unfold SFleb.
  destruct a as [[]|[]| |[] ma ea], b as [[]|[]| |[] mb eb], c as [[]|[]| |[] mc ec];
    simpl; try done; intros; compare_cases; simpl in *; try done; try lia.
Qed.

Lemma SFltb_leb_trans (a b c : spec_float) :
  SFltb a b = true -> SFleb b c = true -> SFltb a c = true.
Proof.
  unfold SFleb, SFltb.
  destruct a as [[]|[]| |[] ma ea], b as [[]|[]| |[] mb eb], c as [[]|[]| |[] mc ec];
    simpl; try done; intros; compare_cases; simpl in *; try done; try lia.
Qed.

Lemma SFcompare_total (a b : spec_float) :
  SFeqb a a = true -> SFeqb b b = true -> is_Some (SFcompare a b).
Proof.
  unfold SFeqb.
  destruct a as [[]|[]| |[] ma ea], b as [[]|[]| |[] mb eb]; simpl; try done;
    intros; eexists; reflexivity.
Qed.

(** [x >= a] and [x < a] exclude each other, and one of them holds
    unless [x] or [a] is [NaN]. *)
Lemma ge_not_lt (x a : JS.number) : JS.ge x a = true -> JS.lt x a = false.
Proof.
  unfold JS.ge, JS.lt. rewrite FloatAxioms.leb_spec, FloatAxioms.ltb_spec. unfold SFleb, SFltb.
  rewrite (SFcompare_antisym (Prim2SF a) (Prim2SF x)).
  by destruct (SFcompare (Prim2SF a) (Prim2SF x)) as [[]|].
Qed.

Lemma ge_or_lt (x a : JS.number) :
  is_number x -> is_number a -> JS.ge x a = true \/ JS.lt x a = true.
Proof.
  unfold is_number, JS.ge, JS.lt. rewrite !FloatAxioms.eqb_spec, FloatAxioms.leb_spec, FloatAxioms.ltb_spec.
  intros Hx Ha. destruct (SFcompare_total _ _ Ha Hx) as [c Hc].
  unfold SFleb, SFltb. rewrite (SFcompare_antisym (Prim2SF a) (Prim2SF x)), Hc.
  destruct c; simpl; auto.
Qed.

Lemma not_number (x a : JS.number) :
  ¬ is_number x -> JS.ge x a = false /\ JS.lt x a = false /\ JS.gt x a = false.
Proof.
  unfold is_number, JS.ge, JS.lt, JS.gt. rewrite FloatAxioms.eqb_spec, FloatAxioms.leb_spec, !FloatAxioms.ltb_spec.
  unfold SFeqb, SFleb, SFltb. intros Hx.
  destruct (Prim2SF x) as [[]|[]| |[] mx ex]; simpl in Hx; try done.
  - by destruct (Prim2SF a).
  - exfalso. apply Hx. rewrite Z.compare_refl.
    change (Pos.compare_cont Eq mx mx) with (Pos.compare mx mx).
    by rewrite Pos.compare_refl.
  - exfalso. apply Hx. rewrite Z.compare_refl.
    change (Pos.compare_cont Eq mx mx) with (Pos.compare mx mx).
    by rewrite Pos.compare_refl.
Qed.

Lemma ge_trans (x a b : JS.number) :
  JS.ge x a = true -> JS.ge a b = true -> JS.ge x b = true.
Proof.
  unfold JS.ge. rewrite !FloatAxioms.leb_spec. intros Hxa Hab. by eapply SFleb_trans.
Qed.

Lemma gt_ge_trans (x y a : JS.number) :
  JS.gt x a = true -> JS.ge y x = true -> JS.gt y a = true.
Proof.
  unfold JS.gt, JS.ge. rewrite FloatAxioms.leb_spec, !FloatAxioms.ltb_spec. apply SFltb_leb_trans.
Qed.

Lemma lt_ge_trans (x y a : JS.number) :
  JS.lt y a = true -> JS.ge y x = true -> JS.lt x a = true.
Proof.
  unfold JS.lt, JS.ge. rewrite FloatAxioms.leb_spec, !FloatAxioms.ltb_spec. intros Hya Hxy.
  unfold SFltb, SFleb in *.
  rewrite (SFcompare_antisym (Prim2SF a) (Prim2SF x)).
  rewrite (SFcompare_antisym (Prim2SF a) (Prim2SF y)) in Hya.
  assert (SFleb (Prim2SF x) (Prim2SF a) = true) as Hle.
  { apply (SFleb_trans _ (Prim2SF y)); [done|]. unfold SFleb.
    rewrite (SFcompare_antisym (Prim2SF a) (Prim2SF y)).
    by destruct (SFcompare (Prim2SF a) (Prim2SF y)) as [[]|]. }
  unfold SFleb in Hle. rewrite (SFcompare_antisym (Prim2SF a) (Prim2SF x)) in Hle.
  destruct (SFcompare (Prim2SF a) (Prim2SF x)) as [[]|] eqn:Hax; simpl in *; try done.
  (* a = x, x <= y, y < a *)
  exfalso.
  assert (SFleb (Prim2SF a) (Prim2SF y) = true) as Hay.
  { apply (SFleb_trans _ (Prim2SF x)); [|done]. unfold SFleb. by rewrite Hax. }
  unfold SFleb in Hay.
  by destruct (SFcompare (Prim2SF a) (Prim2SF y)) as [[]|].
Qed.

(** ** Navigation and the current question *)

Import Session.

(** X1. There is a current question to show exactly when the index is
    within [0, questions.length - 1]; so once there is one, there is one
    after any run of Next and Previous. *)
Theorem X1_current_question_iff_in_bounds (state : State) :
  (is_Some (getCurrentQuestion state) <-> in_bounds state)
  /\ (is_Some (getCurrentQuestion state) ->
      forall moves, is_Some (getCurrentQuestion (navigate state moves))).
Proof.
  assert (forall st, is_Some (getCurrentQuestion st) <-> in_bounds st) as Hiff.
  { intros st. unfold getCurrentQuestion, in_bounds, lastIndex.
    destruct (Z.ltb_spec (currentQuestionIndex st) 0) as [Hneg|Hpos].
    - split; [by intros [? ?] | lia].
    - rewrite lookup_lt_is_Some. lia. }
  split; [apply Hiff|].
  intros Hq moves. apply Hiff, navigate_in_bounds. by apply Hiff.
Qed.

Lemma with_currentQuestionIndex_same (state : State) :
  with_currentQuestionIndex state (currentQuestionIndex state) = state.
Proof. by destruct state. Qed.

Lemma with_currentQuestionIndex_twice (state : State) (i j : Z) :
  with_currentQuestionIndex (with_currentQuestionIndex state i) j
  = with_currentQuestionIndex state j.
Proof. reflexivity. Qed.

(** X2. Previous undoes Next and Next undoes Previous: from an index
    within bounds, a move that took place followed by the opposite move
    gives back the very state, and the second move reports true. *)
Theorem X2_opposite_move_undoes (state : State) :
  in_bounds state ->
  ((nextQuestion state).2 = true ->
   previousQuestion (nextQuestion state).1 = (state, true))
  /\ ((previousQuestion state).2 = true ->
      nextQuestion (previousQuestion state).1 = (state, true)).
Proof.
  intros [Hlo Hhi]. split.
  - destruct (nextQuestion_spec state) as [[Hlt ->]|[_ ->]]; simpl; [intros _|done].
    destruct (previousQuestion_spec
                (with_currentQuestionIndex state (currentQuestionIndex state + 1)))
      as [[_ ->]|[Hle _]]; simpl in *; [|lia].
    rewrite with_currentQuestionIndex_twice.
    replace (currentQuestionIndex state + 1 - 1) with (currentQuestionIndex state) by lia.
    by rewrite with_currentQuestionIndex_same.
  - destruct (previousQuestion_spec state) as [[Hlt ->]|[_ ->]]; simpl; [intros _|done].
    destruct (nextQuestion_spec
                (with_currentQuestionIndex state (currentQuestionIndex state - 1)))
      as [[_ ->]|[Hle _]]; simpl in *; [|unfold lastIndex in *; simpl in *; lia].
    rewrite with_currentQuestionIndex_twice.
    replace (currentQuestionIndex state - 1 + 1) with (currentQuestionIndex state) by lia.
    by rewrite with_currentQuestionIndex_same.
Qed.

Lemma X2_witness :
  previousQuestion (nextQuestion three_questions).1 = (three_questions, true)
  /\ nextQuestion (previousQuestion three_questions).1 = (three_questions, true).
Proof.
  assert (in_bounds three_questions) as Hb by (by vm_compute).
  destruct (X2_opposite_move_undoes three_questions Hb) as [Hn Hp].
  split; [apply Hn | apply Hp]; reflexivity.
Defined.

Lemma move_index_next (state : State) :
  in_bounds state ->
  currentQuestionIndex (move state Next)
  = Z.min (currentQuestionIndex state + 1) (lastIndex state).
Proof.
  intros [Hlo Hhi]. simpl.
  destruct (nextQuestion_spec state) as [[Hlt ->]|[Hge ->]]; simpl; lia.
Qed.

Lemma move_index_previous (state : State) :
  in_bounds state ->
  currentQuestionIndex (move state Previous)
  = Z.max (currentQuestionIndex state - 1) 0.
Proof.
  intros [Hlo Hhi]. simpl.
  destruct (previousQuestion_spec state) as [[Hlt ->]|[Hge ->]]; simpl; lia.
Qed.

Lemma move_lastIndex (state : State) (m : Move) :
  lastIndex (move state m) = lastIndex state.
Proof. unfold lastIndex. by rewrite move_questions. Qed.

(** X3. Pressing one button [n] times saturates: from an index within
    bounds, [n] times Next leads to [min (index + n) (length - 1)] and
    [n] times Previous to [max (index - n) 0]. *)
Theorem X3_repeated_moves_saturate (state : State) (n : nat) :
  in_bounds state ->
  currentQuestionIndex (navigate state (replicate n Next))
  = Z.min (currentQuestionIndex state + Z.of_nat n) (lastIndex state)
  /\ currentQuestionIndex (navigate state (replicate n Previous))
     = Z.max (currentQuestionIndex state - Z.of_nat n) 0.
Proof.
  unfold navigate. revert state. induction n as [|n IH]; intros state Hb.
  - destruct Hb. simpl. lia.
  - cbn [replicate fold_left]. split.
    + destruct (IH (move state Next) (move_in_bounds _ Next Hb)) as [-> _].
      rewrite move_lastIndex, move_index_next by done. destruct Hb. lia.
    + destruct (IH (move state Previous) (move_in_bounds _ Previous Hb)) as [_ ->].
      rewrite move_index_previous by done. destruct Hb. lia.
Qed.

Lemma X3_witness :
  currentQuestionIndex (navigate three_questions (replicate 5 Next)) = 2
  /\ currentQuestionIndex (navigate three_questions (replicate 5 Previous)) = 0.
Proof.
  assert (in_bounds three_questions) as Hb by (by vm_compute).
  exact (X3_repeated_moves_saturate three_questions 5 Hb).
Defined.

(** X4. Whenever the question card is rendered (there is a current
    question), a navigation button is disabled exactly when its move
    would do nothing. *)
Theorem X4_disabled_buttons_do_nothing (state : State) :
  is_Some (getCurrentQuestion state) ->
  Panel.previousDisabled state = negb (previousQuestion state).2
  /\ Panel.nextDisabled state = negb (nextQuestion state).2.
Proof.
  intros Hq.
  assert (in_bounds state) as [Hlo Hhi].
  { unfold getCurrentQuestion, in_bounds, lastIndex in *.
    destruct (Z.ltb_spec (currentQuestionIndex state) 0) as [Hneg|Hpos].
    - by destruct Hq.
    - apply lookup_lt_is_Some in Hq. lia. }
  unfold Panel.previousDisabled, Panel.nextDisabled. split.
  - destruct (previousQuestion_spec state) as [[Hlt ->]|[Hge ->]]; simpl.
    + apply Z.eqb_neq. lia.
    + apply Z.eqb_eq. lia.
  - unfold lastIndex in *.
    destruct (nextQuestion_spec state) as [[Hlt ->]|[Hge ->]]; simpl;
      unfold lastIndex in *.
    + apply Z.eqb_neq. lia.
    + apply Z.eqb_eq. lia.
Qed.

Lemma X4_witness :
  Panel.previousDisabled three_questions = negb (previousQuestion three_questions).2
  /\ Panel.nextDisabled three_questions = negb (nextQuestion three_questions).2.
Proof.
  apply (X4_disabled_buttons_do_nothing three_questions). by eexists.
Defined.

(** ** The reducer *)

Lemma spread_override {A} (old : A) (first second : option A) :
  spread (spread old first) second = spread old (override first second).
Proof. by destruct first, second. Qed.

(** X5. Metrics updates compose by merging their payloads: two
    [metrics_update] events in a row leave the state one event with the
    merged payload (the properties of the second winning) would leave.
    In particular the same payload twice is the payload once, and a
    property no payload carries keeps its value. *)
Theorem X5_metrics_updates_merge (state : State) (p1 p2 : MetricsPayload) :
  interviewReducer (interviewReducer state (UPDATE_METRICS p1)) (UPDATE_METRICS p2)
  = interviewReducer state (UPDATE_METRICS (mergePayload p1 p2))
  /\ interviewReducer (interviewReducer state (UPDATE_METRICS p1)) (UPDATE_METRICS p1)
     = interviewReducer state (UPDATE_METRICS p1)
  /\ (p_face_detected p1 = None ->
      face_detected (metrics (interviewReducer state (UPDATE_METRICS p1)))
      = face_detected (metrics state))
  /\ (p_emotionScores p1 = None ->
      emotionScores (metrics (interviewReducer state (UPDATE_METRICS p1)))
      = emotionScores (metrics state)).
Proof.
  assert (forall q1 q2,
    interviewReducer (interviewReducer state (UPDATE_METRICS q1)) (UPDATE_METRICS q2)
    = interviewReducer state (UPDATE_METRICS (mergePayload q1 q2))) as Hmerge.
  { intros q1 q2. unfold interviewReducer, with_metrics. simpl. f_equal.
    unfold spreadMetrics, mergePayload. simpl.
    rewrite !spread_override. f_equal.
    by destruct (p_face_detected q1), (p_face_detected q2). }
  split; [apply Hmerge|]. split; [|split].
  - rewrite Hmerge. do 2 f_equal.
    destruct p1 as [f e c s em w]. unfold mergePayload. simpl.
    by destruct f, e, c, s, em, w.
  - simpl. by intros ->.
  - simpl. by intros ->.
Qed.



(** ** Starting and ending an interview *)

(** X7. A successful [endInterview] on a state with a session stores the
    report, marks the interview completed and inactive and clears the
    loading flag; the session, the questions, the index, the metrics and
    the error are untouched. *)
Theorem X7_end_interview_resolved (state : State) (final_report : FinalResults) :
  noSession state = false ->
  finalResults (endInterview state (resolved final_report)) = Some final_report
  /\ isInterviewCompleted (endInterview state (resolved final_report)) = true
  /\ isInterviewActive (endInterview state (resolved final_report)) = false
  /\ isLoading (endInterview state (resolved final_report)) = false
  /\ sessionId (endInterview state (resolved final_report)) = sessionId state
  /\ candidateName (endInterview state (resolved final_report)) = candidateName state
  /\ questions (endInterview state (resolved final_report)) = questions state
  /\ currentQuestionIndex (endInterview state (resolved final_report))
     = currentQuestionIndex state
  /\ metrics (endInterview state (resolved final_report)) = metrics state
  /\ Context.error (endInterview state (resolved final_report)) = Context.error state.
Proof.
  intros Hs. unfold endInterview. rewrite Hs. by repeat split.
Qed.

Lemma X7_witness :
  finalResults (endInterview running_session (resolved sample_report)) = Some sample_report
  /\ isInterviewCompleted (endInterview running_session (resolved sample_report)) = true
  /\ isInterviewActive (endInterview running_session (resolved sample_report)) = false.
Proof.
  destruct (X7_end_interview_resolved running_session sample_report eq_refl)
    as (H1 & H2 & H3 & _).
  by repeat split.
Defined.

(** X8. [endInterview] without a session id (null or empty) does
    nothing at all, and a rejected request never marks the interview
    completed, never stops it and never stores a report: the completed
    flag is set only by a resolved response on a state with a session. *)
Theorem X8_end_interview_guarded (state : State) (response : Response FinalResults) :
  (noSession state = true -> endInterview state response = state)
  /\ (forall message,
        isInterviewCompleted (endInterview state (rejected message))
        = isInterviewCompleted state
        /\ isInterviewActive (endInterview state (rejected message))
           = isInterviewActive state
        /\ finalResults (endInterview state (rejected message)) = finalResults state
        /\ (noSession state = false ->
            Context.error (endInterview state (rejected message)) = Some message
            /\ isLoading (endInterview state (rejected message)) = false))
  /\ (isInterviewCompleted (endInterview state response) = true ->
      isInterviewCompleted state = true
      \/ (noSession state = false /\ exists final_report, response = resolved final_report)).
Proof.
  unfold endInterview. split; [|split].
  - by intros ->.
  - intros message. destruct (noSession state); by repeat split.
  - destruct (noSession state) eqn:Hs; [by left|].
    destruct response as [final_report|message]; simpl.
    + intros _. right. split; [done|]. by exists final_report.
    + by left.
Qed.

(** X9. A successful [startInterview] stores the session id, the name and
    the questions and clears the loading flag, but keeps the current
    question index: the new interview has a current question exactly
    when the old index is a position of the new list. *)
Theorem X9_start_interview_keeps_index (state : State) (name session_id : string)
    (selected : list Question) :
  sessionId (startInterview state name selected (resolved session_id)) = Some session_id
  /\ candidateName (startInterview state name selected (resolved session_id)) = name
  /\ questions (startInterview state name selected (resolved session_id)) = selected
  /\ isLoading (startInterview state name selected (resolved session_id)) = false
  /\ currentQuestionIndex (startInterview state name selected (resolved session_id))
     = currentQuestionIndex state
  /\ (is_Some (getCurrentQuestion (startInterview state name selected (resolved session_id)))
      <-> 0 <= currentQuestionIndex state < Z.of_nat (length selected)).
Proof.
  do 5 (split; [reflexivity|]).
  unfold getCurrentQuestion. simpl.
  destruct (Z.ltb_spec (currentQuestionIndex state) 0) as [Hneg|Hpos].
  - split; [by intros [? ?] | lia].
  - rewrite lookup_lt_is_Some. lia.
Qed.

(** A second interview, started on the last question of the first one
    with a shorter selection, has no current question. *)
Example run_second_interview :
  getCurrentQuestion
    (startInterview (with_currentQuestionIndex running_session 2) "Asha"
       (take 1 (questions three_questions)) (resolved "d4e5f6"))
  = None.
Proof. reflexivity. Qed.

(** ** The warning list and what the page renders from it *)

Lemma number_trichotomy (x a : JS.number) :
  is_number x -> is_number a ->
  JS.strict_eq x a = true \/ JS.gt x a = true \/ JS.lt x a = true.
Proof.
  unfold is_number, JS.strict_eq, JS.gt, JS.lt.
  rewrite !FloatAxioms.eqb_spec, !FloatAxioms.ltb_spec.
  intros Hx Ha. destruct (SFcompare_total _ _ Ha Hx) as [c Hc].
  unfold SFeqb, SFltb. rewrite (SFcompare_antisym (Prim2SF a) (Prim2SF x)), Hc.
  destruct c; simpl; auto.
Qed.

Lemma lt_not_eq_gt (x a : JS.number) :
  JS.lt x a = true -> JS.strict_eq x a = false /\ JS.gt x a = false.
Proof.
  unfold JS.strict_eq, JS.gt, JS.lt.
  rewrite !FloatAxioms.eqb_spec, !FloatAxioms.ltb_spec. unfold SFeqb, SFltb.
  rewrite (SFcompare_antisym (Prim2SF x) (Prim2SF a)).
  by destruct (SFcompare (Prim2SF x) (Prim2SF a)) as [[]|].
Qed.

Lemma zero_is_number : is_number 0%float.
Proof. reflexivity. Qed.

Lemma established_length (metrics : Metrics) :
  JS.ToBoolean (face_detected metrics) = true ->
  JS.gt (eyeContactPercentage metrics) 0%float = true ->
  length (analyzeWarnings metrics) = (4 + length (emotion_entries metrics))%nat.
Proof.
  intros Hface Hgt.
  destruct (analyzeWarnings_established _ Hface Hgt) as (d & e & c & s & -> & _).
  by rewrite sort_perm.
Qed.

Lemma emotion_entries_length (metrics : Metrics) :
  (length (emotion_entries metrics) <= 4)%nat
  /\ (emotionScores metrics <> None -> 1 <= length (emotion_entries metrics))%nat.
Proof.
  unfold emotion_entries. destruct (emotionScores metrics) as [scores|];
    [|split; [simpl; lia | done]].
  assert (length (flagged scores) <= 4)%nat as Hle
    by (unfold flagged; etrans; [apply length_filter|done]).
  case_decide as Hnone; simpl.
  - lia.
  - rewrite length_fmap. split; [done|]. intros _.
    destruct (flagged scores); [done|simpl; lia].
Qed.

(** In the established branch nothing is a Detection error. *)
Lemma established_entries (metrics : Metrics) :
  JS.ToBoolean (face_detected metrics) = true ->
  JS.gt (eyeContactPercentage metrics) 0%float = true ->
  Forall (λ w, well_prioritised w
               /\ (Room.category w = Detection -> type w = Success)
               /\ priority w <> 1 /\ priority w <> 2 /\ priority w <= 4)
    (analyzeWarnings metrics).
Proof.
  intros Hface Hgt.
  destruct (analyzeWarnings_established _ Hface Hgt)
    as (d & e & c & s & -> & (Hd & Hd0 & Hdc) & [He _] & [Hc _] & [Hs _]).
  assert (forall x lo hi w, graded x lo hi w ->
            well_prioritised w
            /\ (Room.category w = Detection -> type w = Success)
            /\ priority w <> 1 /\ priority w <> 2 /\ priority w <= 4) as Hgraded.
  { intros x lo hi w Hw. split; [by eapply graded_well_prioritised|].
    destruct Hw as (Hcat & H1 & H2 & H3). split; [congruence|].
    destruct (JS.lt x lo); [destruct H1 as [_ ->]; [done|lia]|].
    destruct (JS.lt x hi); [destruct H2 as [_ ->]; [done..|lia]|].
    destruct H3 as [_ ->]; [done..|lia]. }
  rewrite sort_perm. repeat apply Forall_cons_2; eauto.
  - unfold well_prioritised. rewrite Hd, Hd0. repeat split; try done; lia.
  - unfold emotion_entries. destruct (emotionScores metrics) as [scores|]; [|constructor].
    case_decide.
    + repeat constructor; simpl; try done; lia.
    + apply Forall_fmap, Forall_forall. intros em _. simpl.
      repeat split; try done; lia.
Qed.

(** X10. The face-detection badge agrees with the warning list: it reads
    "no-face" exactly when the list is the single priority-1 error,
    "no-eyes" exactly when it is the single priority-2 error, and
    "face-detected" exactly when the list holds no Detection error. *)
Theorem X10_face_status_agrees (metrics : Metrics) :
  (Panel.status (Panel.getFaceDetectionStatus metrics) = "no-face"
   <-> exists w, analyzeWarnings metrics = [w] /\ is_detection_error 1 w)
  /\ (Panel.status (Panel.getFaceDetectionStatus metrics) = "no-eyes"
      <-> exists w, analyzeWarnings metrics = [w] /\ is_detection_error 2 w)
  /\ (Panel.status (Panel.getFaceDetectionStatus metrics) = "face-detected"
      <-> Forall (λ w, ¬ (type w = Error /\ Room.category w = Detection))
            (analyzeWarnings metrics)).
Proof.
  unfold Panel.getFaceDetectionStatus.
  destruct (JS.ToBoolean (face_detected metrics)) eqn:Hface; simpl.
  - destruct (JS.strict_eq (eyeContactPercentage metrics) 0%float) eqn:Heyes; simpl.
    + destruct (analyzeWarnings_no_eyes _ Hface Heyes) as (w & Hw & Ht & Hp & Hc).
      rewrite Hw. split; [|split].
      * split; [done|]. intros (w' & [= <-] & _ & Hp' & _). lia.
      * split; [|done]. intros _. by exists w.
      * split; [done|]. intros Hall. apply Forall_inv in Hall. exfalso. by apply Hall.
    + destruct (JS.gt (eyeContactPercentage metrics) 0%float) eqn:Hgt.
      * pose proof (established_length _ Hface Hgt) as Hlen.
        pose proof (established_entries _ Hface Hgt) as Hall.
        split; [|split].
        -- split; [done|]. intros (w & Hw & _). rewrite Hw in Hlen. simpl in Hlen. lia.
        -- split; [done|]. intros (w & Hw & _). rewrite Hw in Hlen. simpl in Hlen. lia.
        -- split; [|done]. intros _. eapply Forall_impl; [exact Hall|]. simpl.
           intros w (_ & Hdet & _) [Herr Hcat]. rewrite (Hdet Hcat) in Herr. done.
      * rewrite analyzeWarnings_no_branch by done. split; [|split].
        -- split; [done|]. by intros (w & ? & _).
        -- split; [done|]. by intros (w & ? & _).
        -- split; [|done]. intros _. constructor.
  - destruct (analyzeWarnings_no_face _ Hface) as (w & Hw & Ht & Hp & Hc).
    rewrite Hw. split; [|split].
    + split; [|done]. intros _. by exists w.
    + split; [done|]. intros (w' & [= <-] & _ & Hp' & _). lia.
    + split; [done|]. intros Hall. apply Forall_inv in Hall. exfalso. by apply Hall.
Qed.

(** X11. The warning list is empty in one situation only: a face is
    detected and the eye-contact percentage is negative or not a number. *)
Theorem X11_empty_list (metrics : Metrics) :
  analyzeWarnings metrics = []
  <-> JS.ToBoolean (face_detected metrics) = true
      /\ (JS.lt (eyeContactPercentage metrics) 0%float = true
          \/ ¬ is_number (eyeContactPercentage metrics)).
Proof.
  destruct (JS.ToBoolean (face_detected metrics)) eqn:Hface.
  - destruct (JS.strict_eq (eyeContactPercentage metrics) 0%float) eqn:Heyes.
    + destruct (analyzeWarnings_no_eyes _ Hface Heyes) as (w & -> & _).
      split; [done|]. intros [_ [Hlt|Hnan]].
      * apply lt_not_eq_gt in Hlt as [? _]. congruence.
      * exfalso. apply Hnan. unfold is_number, JS.strict_eq in *.
        rewrite FloatAxioms.eqb_spec in *. unfold SFeqb in *.
        destruct (Prim2SF (eyeContactPercentage metrics)) as [[]|[]| |[] mx ex];
          simpl in *; try done.
    + destruct (JS.gt (eyeContactPercentage metrics) 0%float) eqn:Hgt.
      * pose proof (established_length _ Hface Hgt) as Hlen.
        split; [intros Hnil; rewrite Hnil in Hlen; simpl in Hlen; lia|].
        intros [_ [Hlt|Hnan]].
        -- apply lt_not_eq_gt in Hlt as [_ ?]. congruence.
        -- apply (not_number _ 0%float) in Hnan as (_ & _ & ?). congruence.
      * rewrite analyzeWarnings_no_branch by done. split; [|done]. intros _.
        split; [done|].
        destruct (decide (is_number (eyeContactPercentage metrics))) as [Hn|Hn];
          [|by right].
        left. destruct (number_trichotomy _ _ Hn zero_is_number) as [?|[?|?]];
          congruence.
  - destruct (analyzeWarnings_no_face _ Hface) as (w & -> & _).
    split; [done|]. by intros [? _].
Qed.

(** X12. The list never has more than eight entries; once face and eyes
    are established it has at least four, and at least five when an
    emotion mapping is present. *)
Theorem X12_length_bounds (metrics : Metrics) :
  (length (analyzeWarnings metrics) <= 8)%nat
  /\ (JS.ToBoolean (face_detected metrics) = true ->
      JS.gt (eyeContactPercentage metrics) 0%float = true ->
      (4 <= length (analyzeWarnings metrics))%nat
      /\ (emotionScores metrics <> None -> 5 <= length (analyzeWarnings metrics))%nat).
Proof.
  pose proof (emotion_entries_length metrics) as [Hle Hge].
  split.
  - destruct (JS.ToBoolean (face_detected metrics)) eqn:Hface.
    + destruct (JS.strict_eq (eyeContactPercentage metrics) 0%float) eqn:Heyes.
      * destruct (analyzeWarnings_no_eyes _ Hface Heyes) as (w & -> & _). simpl. lia.
      * destruct (JS.gt (eyeContactPercentage metrics) 0%float) eqn:Hgt.
        -- rewrite established_length by done. lia.
        -- rewrite analyzeWarnings_no_branch by done. simpl. lia.
    + destruct (analyzeWarnings_no_face _ Hface) as (w & -> & _). simpl. lia.
  - intros Hface Hgt. rewrite established_length by done.
    split; [lia|]. intros Hsome. specialize (Hge Hsome). lia.
Qed.

Lemma sort_cons_least {A} (key : A -> Z) (d : A) (l : list A) :
  Forall (λ y, key d <= key y) l ->
  JS.sort (d :: l) (by_key key) = d :: JS.sort l (by_key key).
Proof.
  intros Hl. unfold JS.sort. simpl.
  assert (Forall (λ y, key d <= key y) (foldr (JS.insert (by_key key)) [] l)) as Hs
    by (by rewrite (sort_perm (by_key key) l)).
  destruct (foldr (JS.insert (by_key key)) [] l) as [|y sl]; simpl; [done|].
  apply Forall_inv in Hs. unfold by_key at 1.
  destruct (Z.leb_spec (key d - key y) 0); [done|lia].
Qed.

(** The established list: the detection success, then everything else
    sorted. *)
Lemma established_head (metrics : Metrics) :
  JS.ToBoolean (face_detected metrics) = true ->
  JS.gt (eyeContactPercentage metrics) 0%float = true ->
  exists d rest,
    analyzeWarnings metrics = d :: rest
    /\ (type d = Success /\ priority d = 0 /\ Room.category d = Detection)
    /\ StronglySorted priority_le rest
    /\ Forall (λ w, Room.category w <> Detection /\ well_prioritised w) rest
    /\ (3 <= length rest)%nat.
Proof.
  intros Hface Hgt.
  destruct (analyzeWarnings_established _ Hface Hgt)
    as (d & e & c & s & Hout & (Hd & Hd0 & Hdc) & [He _] & [Hc _] & [Hs _]).
  assert (Forall (λ w, Room.category w <> Detection /\ well_prioritised w)
            ([e; c; s] ++ emotion_entries metrics)) as Hrest.
  { apply Forall_app. split.
    - repeat constructor;
        first [ by eapply graded_well_prioritised
              | match goal with H : graded _ _ _ ?w |- Room.category ?w <> _ =>
                  destruct H as (-> & _); done end ].
    - eapply Forall_impl; [apply emotion_entries_spec|]. simpl.
      intros w [-> ?]. done. }
  exists d, (JS.sort ([e; c; s] ++ emotion_entries metrics) by_priority).
  split; [|split; [done|split; [|split]]].
  - rewrite Hout. apply (sort_cons_least priority d).
    eapply Forall_impl; [exact Hrest|]. simpl. intros w (_ & Hw & _). lia.
  - apply sort_sorted.
  - by rewrite sort_perm.
  - rewrite sort_perm, length_app. simpl. lia.
Qed.

(** X13. Once face and eyes are established the list starts with the
    detection Success, and it is the only Detection entry; so the
    overlay's three slots are that entry and the two entries of least
    priority among the others. *)
Theorem X13_overlay_starts_with_detection (metrics : Metrics) :
  JS.ToBoolean (face_detected metrics) = true ->
  JS.gt (eyeContactPercentage metrics) 0%float = true ->
  exists d w1 w2 rest,
    analyzeWarnings metrics = d :: w1 :: w2 :: rest
    /\ Panel.overlay (analyzeWarnings metrics) = [d; w1; w2]
    /\ type d = Success /\ Room.category d = Detection
    /\ Forall (λ w, Room.category w <> Detection) (w1 :: w2 :: rest)
    /\ Forall (λ w, priority w1 <= priority w /\ priority w2 <= priority w) rest.
Proof.
  intros Hface Hgt.
  destruct (established_head _ Hface Hgt)
    as (d & rest & Hout & (Hd & _ & Hdc) & Hsorted & Hrest & Hlen).
  destruct rest as [|w1 [|w2 rest]]; simpl in Hlen; try lia.
  exists d, w1, w2, rest. rewrite Hout.
  split; [done|]. split; [done|]. split; [done|]. split; [done|]. split.
  - eapply Forall_impl; [exact Hrest|]. simpl. tauto.
  - apply StronglySorted_inv in Hsorted as [Hs1 H1].
    apply StronglySorted_inv in Hs1 as [_ H2].
    apply Forall_inv_tail in H1.
    rewrite Forall_forall in H1, H2 |- *. intros w Hw.
    specialize (H1 w Hw). specialize (H2 w Hw). done.
Qed.

Lemma X13_witness :
  exists d w1 w2 rest,
    analyzeWarnings established = d :: w1 :: w2 :: rest
    /\ Panel.overlay (analyzeWarnings established) = [d; w1; w2]
    /\ type d = Success /\ Room.category d = Detection
    /\ Forall (λ w, Room.category w <> Detection) (w1 :: w2 :: rest)
    /\ Forall (λ w, priority w1 <= priority w /\ priority w2 <= priority w) rest.
Proof.
  apply (X13_overlay_starts_with_detection established); reflexivity.
Defined.



Example run_only_eye_contact :
  summary <$> analyzeWarnings only_eye_contact
  = [ (Success, 0, Detection); (Success, 0, Performance);
      (Error, 3, Performance); (Error, 3, Performance); (Warning, 4, Emotion) ]
  /\ summary <$> Panel.autoHide (analyzeWarnings only_eye_contact)
     = [ (Success, 0, Detection); (Success, 0, Performance) ].
Proof. split; reflexivity. Qed.

Lemma graded_error_iff (x lo hi : JS.number) (w : WarningMessage) :
  graded x lo hi w -> (type w = Error <-> JS.lt x lo = true).
Proof.
  intros (_ & H1 & H2 & H3). destruct (JS.lt x lo).
  - destruct H1 as [-> _]; done.
  - destruct (JS.lt x hi).
    + destruct H2 as [-> _]; done.
    + destruct H3 as [-> _]; done.
Qed.

Lemma some_exists {A} (l : list A) (pred : A -> bool) :
  Panel.some l pred = true <-> exists x, x ∈ l /\ pred x = true.
Proof.
  unfold Panel.some. rewrite existsb_exists.
  split; intros (x & Hx & Hp); exists x; split; try done; by apply list_elem_of_In.
Qed.

Lemma statusLabel_critical (l : list WarningMessage) :
  Panel.statusLabel l = "Critical Issues" <-> exists w, w ∈ l /\ type w = Error.
Proof.
  unfold Panel.statusLabel. destruct l as [|w0 l]; simpl length; cbn [Nat.eqb].
  - split; [done|]. intros (w & Hw & _). by apply elem_of_nil in Hw.
  - destruct (Panel.some (w0 :: l) (Panel.type_is Error)) eqn:Hsome.
    + split; [intros _|done]. apply some_exists in Hsome as (w & Hw & Ht).
      exists w. split; [done|]. unfold Panel.type_is in Ht. by destruct (type w).
    + split; [done|]. intros (w & Hw & Ht).
      assert (Panel.some (w0 :: l) (Panel.type_is Error) = true); [|congruence].
      apply some_exists. exists w. split; [done|]. unfold Panel.type_is. by rewrite Ht.
Qed.

Lemma statusLabel_all_good (l : list WarningMessage) :
  Panel.statusLabel l = "All Good" <-> l = [].
Proof.
  unfold Panel.statusLabel. destruct l as [|w0 l]; simpl length; cbn [Nat.eqb].
  - done.
  - by destruct (Panel.some (w0 :: l) (Panel.type_is Error)).
Qed.

Lemma status_critical_iff (metrics : Metrics) :
  Panel.statusLabel (analyzeWarnings metrics) = "Critical Issues"
   <-> JS.ToBoolean (face_detected metrics) = false
       \/ JS.strict_eq (eyeContactPercentage metrics) 0%float = true
       \/ (JS.gt (eyeContactPercentage metrics) 0%float = true
           /\ (JS.lt (eyeContactPercentage metrics) 30%float = true
               \/ JS.lt (confidenceScore metrics) 0.4%float = true
               \/ JS.lt (speechClarity metrics) 0.6%float = true)).
Proof.
  rewrite statusLabel_critical.
  destruct (JS.ToBoolean (face_detected metrics)) eqn:Hface.
  - destruct (JS.strict_eq (eyeContactPercentage metrics) 0%float) eqn:Heyes.
    + destruct (analyzeWarnings_no_eyes _ Hface Heyes) as (w & -> & Ht & _).
      split; [by auto|]. intros _. exists w. split; [left|done].
    + destruct (JS.gt (eyeContactPercentage metrics) 0%float) eqn:Hgt.
      * destruct (analyzeWarnings_established _ Hface Hgt)
           as (d & e & c & s & -> & (Hd & _ & _) & [He _] & [Hc _] & [Hs _]).
         pose proof (graded_error_iff _ _ _ _ He) as Hee.
         pose proof (graded_error_iff _ _ _ _ Hc) as Hce.
         pose proof (graded_error_iff _ _ _ _ Hs) as Hse.
         pose proof (emotion_entries_spec metrics) as Hemo.
         rewrite Forall_forall in Hemo.
         split.
         -- intros (w & Hw & Ht). right. right. split; [done|].
            rewrite sort_perm in Hw.
            rewrite elem_of_app, !elem_of_cons, elem_of_nil in Hw.
            destruct Hw as [[->|[->|[->|[->|[]]]]]|Hw].
            ++ congruence.
            ++ left. by apply Hee.
            ++ right. left. by apply Hce.
            ++ right. right. by apply Hse.
            ++ destruct (Hemo w Hw) as [_ [Hp0 Hw0]].
               unfold emotion_entries in Hw.
               destruct (emotionScores metrics) as [scores|];
                 [|by apply elem_of_nil in Hw].
               case_decide.
               **  apply list_elem_of_singleton in Hw. by subst w.
               **  apply list_elem_of_fmap in Hw as (em & -> & _). done.
         -- intros [?|[?|[_ Hlt]]]; try congruence.
            destruct Hlt as [Hlt|[Hlt|Hlt]].
            ++ exists e. split; [|by apply Hee]. rewrite sort_perm.
               apply elem_of_app. left. rewrite !elem_of_cons. tauto.
            ++ exists c. split; [|by apply Hce]. rewrite sort_perm.
               apply elem_of_app. left. rewrite !elem_of_cons. tauto.
            ++ exists s. split; [|by apply Hse]. rewrite sort_perm.
               apply elem_of_app. left. rewrite !elem_of_cons. tauto.
      *  rewrite analyzeWarnings_no_branch by done. split.
         -- intros (w & Hw & _). by apply elem_of_nil in Hw.
         -- intros [?|[?|[? _]]]; congruence.
  - destruct (analyzeWarnings_no_face _ Hface) as (w & -> & Ht & _).
    split; [by auto|]. intros _. exists w. split; [left|done].
Qed.

(** X15. The header's status indicator over the warning list reads
    "Critical Issues" exactly when no face is detected, or the
    percentage is zero, or (the percentage being positive) eye contact
    is below 30, confidence below 0.4 or speech clarity below 0.6.
    Once face and eyes are established it never reads "All Good", not
    even when every check passes. *)
Theorem X15_status_indicator (metrics : Metrics) :
  (Panel.statusLabel (analyzeWarnings metrics) = "Critical Issues"
   <-> JS.ToBoolean (face_detected metrics) = false
       \/ JS.strict_eq (eyeContactPercentage metrics) 0%float = true
       \/ (JS.gt (eyeContactPercentage metrics) 0%float = true
           /\ (JS.lt (eyeContactPercentage metrics) 30%float = true
               \/ JS.lt (confidenceScore metrics) 0.4%float = true
               \/ JS.lt (speechClarity metrics) 0.6%float = true)))
  /\ (JS.ToBoolean (face_detected metrics) = true ->
      JS.gt (eyeContactPercentage metrics) 0%float = true ->
      Panel.statusLabel (analyzeWarnings metrics) <> "All Good").
Proof.
  split; [apply status_critical_iff|].
  intros Hface Hgt. rewrite statusLabel_all_good.
  pose proof (established_length _ Hface Hgt) as Hlen.
  intros Hnil. rewrite Hnil in Hlen. simpl in Hlen. lia.
Qed.

Example run_all_good :
  summary <$> analyzeWarnings all_good
  = [ (Success, 0, Detection); (Success, 0, Performance); (Success, 0, Performance);
      (Success, 0, Performance); (Success, 0, Emotion) ]
  /\ Panel.statusLabel (analyzeWarnings all_good) = "Needs Attention"
  /\ Panel.panelBadge (analyzeWarnings all_good) = "Warning".
Proof. repeat split; reflexivity. Qed.

Lemma panelBadge_critical (l : list WarningMessage) :
  Panel.panelBadge l = "Critical" <-> exists w, w ∈ l /\ priority w = 1.
Proof.
  unfold Panel.panelBadge. destruct l as [|w0 l]; simpl length; cbn [Nat.eqb].
  - split; [done|]. intros (w & Hw & _). by apply elem_of_nil in Hw.
  - destruct (Panel.some (w0 :: l) (λ w, priority w =? 1)) eqn:Hsome.
    + split; [intros _|done]. apply some_exists in Hsome as (w & Hw & Ht).
      exists w. split; [done|]. by apply Z.eqb_eq.
    + split; [done|]. intros (w & Hw & Ht).
      assert (Panel.some (w0 :: l) (λ w, priority w =? 1) = true); [|congruence].
      apply some_exists. exists w. split; [done|]. by apply Z.eqb_eq.
Qed.

(** X16. The panel's badge over the warning list reads "Critical"
    exactly when no face is detected; eyes that are not visible, and
    any failing performance check, read "Warning". *)
Theorem X16_panel_badge_critical (metrics : Metrics) :
  Panel.panelBadge (analyzeWarnings metrics) = "Critical"
  <-> JS.ToBoolean (face_detected metrics) = false.
Proof.
  rewrite panelBadge_critical.
  destruct (JS.ToBoolean (face_detected metrics)) eqn:Hface.
  - split; [|done]. intros (w & Hw & Hp). exfalso.
    destruct (JS.strict_eq (eyeContactPercentage metrics) 0%float) eqn:Heyes.
    + destruct (analyzeWarnings_no_eyes _ Hface Heyes) as (w' & Hout & _ & Hp' & _).
      rewrite Hout in Hw. apply list_elem_of_singleton in Hw. subst w'. lia.
    + destruct (JS.gt (eyeContactPercentage metrics) 0%float) eqn:Hgt.
      * pose proof (established_entries _ Hface Hgt) as Hall.
        rewrite Forall_forall in Hall. destruct (Hall w Hw) as (_ & _ & Hp1 & _). done.
      * rewrite analyzeWarnings_no_branch in Hw by done. by apply elem_of_nil in Hw.
  - split; [done|]. intros _.
    destruct (analyzeWarnings_no_face _ Hface) as (w & -> & _ & Hp & _).
    exists w. split; [left|done].
Qed.

Lemma existsb_false_filter {A} (pred : A -> bool) (l : list A) :
  existsb pred l = false -> List.filter pred l = [].
Proof.
  induction l as [|x l IH]; simpl; [done|].
  destruct (pred x); simpl; [done|]. exact IH.
Qed.

Lemma chip_sum (l : list WarningMessage) (p : Z) (label : string) :
  sum_list_with fst (Panel.chip l p label)
  = length (List.filter (λ w, priority w =? p) l).
Proof.
  unfold Panel.chip, Panel.some.
  destruct (existsb (λ w, priority w =? p) l) eqn:Hsome; simpl.
  - lia.
  - by rewrite existsb_false_filter.
Qed.

(** Every entry of the list has a priority from 0 to 4, priority 0
    being the Success entries. *)
Lemma analyzeWarnings_priorities (metrics : Metrics) :
  Forall (λ w, well_prioritised w /\ priority w <= 4) (analyzeWarnings metrics).
Proof.
  destruct (JS.ToBoolean (face_detected metrics)) eqn:Hface.
  - destruct (JS.strict_eq (eyeContactPercentage metrics) 0%float) eqn:Heyes.
    + destruct (analyzeWarnings_no_eyes _ Hface Heyes) as (w & -> & Hw).
      apply Forall_singleton. split.
      * apply (detection_error_well_prioritised 2); [lia|done].
      * destruct Hw as (_ & -> & _). lia.
    + destruct (JS.gt (eyeContactPercentage metrics) 0%float) eqn:Hgt.
      * eapply Forall_impl; [by apply established_entries|]. simpl. tauto.
      * rewrite analyzeWarnings_no_branch by done. constructor.
  - destruct (analyzeWarnings_no_face _ Hface) as (w & -> & Hw).
    apply Forall_singleton. split.
    + apply (detection_error_well_prioritised 1); [lia|done].
    + destruct Hw as (_ & -> & _). lia.
Qed.

Lemma counts_add_up (l : list WarningMessage) :
  Forall (λ w, well_prioritised w /\ priority w <= 4) l ->
  (length (List.filter (λ w, (priority w =? 1)%Z) l)
   + length (List.filter (λ w, (priority w =? 2)%Z) l)
   + length (List.filter (λ w, (priority w =? 3)%Z) l)
   + length (List.filter (λ w, (priority w =? 4)%Z) l)
   + length (filter (λ w, type w = Success) l))%nat
  = length l.
Proof.
  induction 1 as [|w l [[Hlo Hs] Hhi] _ IH]; [done|].
  rewrite filter_cons. simpl.
  assert (priority w = 0 \/ priority w = 1 \/ priority w = 2
          \/ priority w = 3 \/ priority w = 4) as Hp by lia.
  destruct Hp as [Hp|[Hp|[Hp|[Hp|Hp]]]]; rewrite Hp; simpl.
  - rewrite decide_True by tauto. simpl. lia.
  - rewrite decide_False by (rewrite Hs; lia). simpl. lia.
  - rewrite decide_False by (rewrite Hs; lia). simpl. lia.
  - rewrite decide_False by (rewrite Hs; lia). simpl. lia.
  - rewrite decide_False by (rewrite Hs; lia). simpl. lia.
Qed.

(** X17. The chips of the warning summary account for every entry that
    is not a Success: the counts shown (Critical, High, Medium, Low)
    and the number of Success entries add up to the length of the list. *)
Theorem X17_summary_chips_add_up (metrics : Metrics) :
  (sum_list_with fst (Panel.summaryChips (analyzeWarnings metrics))
   + length (filter (λ w, type w = Success) (analyzeWarnings metrics)))%nat
  = length (analyzeWarnings metrics).
Proof.
  unfold Panel.summaryChips. rewrite !sum_list_with_app, !chip_sum.
  pose proof (counts_add_up _ (analyzeWarnings_priorities metrics)).
  lia.
Qed.

Example run_summary_chips :
  Panel.summaryChips (analyzeWarnings only_eye_contact) = [(2%nat, "Medium"); (1%nat, "Low")]
  /\ Panel.summaryChips (analyzeWarnings (metrics initialState)) = [(1%nat, "Critical")].
Proof. split; reflexivity. Qed.

(** X18. The demo mode only ever injects the "no face" error: the
    callbacks of its 3 s and 6 s timers test the list of the render that
    armed them, which is empty, so they never set anything. *)
Theorem X18_demo_mode_first_stage_only (isInterviewActive : bool) (interviewTime : Z)
    (warningMessages : list WarningMessage) :
  (length (Panel.demoMode isInterviewActive interviewTime warningMessages) <= 1)%nat
  /\ Forall (λ '(delay, demo),
               delay = 0 /\ exists w, demo = [w] /\ is_detection_error 1 w)
       (Panel.demoMode isInterviewActive interviewTime warningMessages)
  /\ (Panel.demoMode isInterviewActive interviewTime warningMessages <> [] <->
      isInterviewActive = true /\ 5 < interviewTime /\ warningMessages = []).
Proof.
  unfold Panel.demoMode.
  destruct isInterviewActive; simpl; [|split; [lia|split; [constructor|]]; by intuition].
  destruct (Z.gtb_spec interviewTime 5) as [Hgt|Hle]; simpl;
    [|split; [lia|split; [constructor|]]; intuition; lia].
  destruct warningMessages as [|w0 l]; simpl.
  - split; [lia|]. split; [|by intuition].
    constructor; [|constructor]. split; [done|]. eexists. split; [done|]. by repeat split.
  - split; [lia|]. split; [constructor|]. by intuition.
Qed.

(** X19. The colour and the status word of a score agree: green goes
    with "Excellent", yellow with "Good", red with "Fair" and "Needs
    Improvement"; a score that is not a number is red and "Needs
    Improvement". *)
Theorem X19_colour_matches_status (score : JS.number) :
  (Panel.getPerformanceColor score = "text-green-600"
   <-> Panel.getPerformanceStatus score = "Excellent")
  /\ (Panel.getPerformanceColor score = "text-yellow-600"
      <-> Panel.getPerformanceStatus score = "Good")
  /\ (Panel.getPerformanceColor score = "text-red-600"
      <-> Panel.getPerformanceStatus score = "Fair"
          \/ Panel.getPerformanceStatus score = "Needs Improvement")
  /\ (¬ is_number score ->
      Panel.getPerformanceColor score = "text-red-600"
      /\ Panel.getPerformanceStatus score = "Needs Improvement").
Proof.
  unfold Panel.getPerformanceColor, Panel.getPerformanceStatus.
  split; [|split; [|split]].
  - destruct (JS.ge score 80%float), (JS.ge score 60%float), (JS.ge score 40%float); done.
  - destruct (JS.ge score 80%float), (JS.ge score 60%float), (JS.ge score 40%float); done.
  - destruct (JS.ge score 80%float), (JS.ge score 60%float), (JS.ge score 40%float);
      split; try done; try (intros [?|?]; done); auto.
  - intros Hnan.
    destruct (not_number score 80%float Hnan) as (-> & _).
    destruct (not_number score 60%float Hnan) as (-> & _).
    destruct (not_number score 40%float Hnan) as (-> & _). done.
Qed.

(** ** Metrics updates and the warning list *)

Lemma update_keeps_no_face (state : State) (payload : MetricsPayload) :
  JS.ToBoolean (face_detected (metrics state)) = false ->
  p_face_detected payload <> Some true ->
  JS.ToBoolean (face_detected (metrics (interviewReducer state (UPDATE_METRICS payload))))
  = false.
Proof.
  simpl. intros Hold Hnew. by destruct (p_face_detected payload) as [[]|].
Qed.

(** X20. Until a [metrics_update] reports a face, the warning list stays
    the single "no face" error: from a state whose flag is false or
    missing, as the initial state's is, any run of updates none of which
    carries [face_detected: true] leaves that one entry, whatever the
    scores they carry. *)
Theorem X20_no_face_until_reported (state : State) (payloads : list MetricsPayload) :
  JS.ToBoolean (face_detected (metrics state)) = false ->
  Forall (λ payload, p_face_detected payload <> Some true) payloads ->
  exists w,
    analyzeWarnings (metrics (metricsUpdates state payloads)) = [w]
    /\ is_detection_error 1 w.
Proof.
  intros Hface Hall. apply analyzeWarnings_no_face.
  unfold metricsUpdates. revert state Hface.
  induction Hall as [|payload payloads Hp _ IH]; intros state Hface; simpl; [done|].
  apply IH. by apply update_keeps_no_face.
Qed.

Lemma X20_witness :
  exists w,
    analyzeWarnings (metrics (metricsUpdates initialState [scores_only; face_lost; scores_only]))
    = [w]
    /\ is_detection_error 1 w.
Proof.
  apply (X20_no_face_until_reported initialState [scores_only; face_lost; scores_only]).
  - reflexivity.
  - repeat constructor; discriminate.
Defined.

(** X21. Better metrics never turn the status indicator critical: if a
    state with face and eyes established shows no "Critical Issues",
    neither does any state with a detected face whose eye contact,
    confidence and speech clarity are at least as high. *)
Theorem X21_improvement_never_critical (m1 m2 : Metrics) :
  JS.ToBoolean (face_detected m2) = true ->
  JS.gt (eyeContactPercentage m1) 0%float = true ->
  JS.ge (eyeContactPercentage m2) (eyeContactPercentage m1) = true ->
  JS.ge (confidenceScore m2) (confidenceScore m1) = true ->
  JS.ge (speechClarity m2) (speechClarity m1) = true ->
  Panel.statusLabel (analyzeWarnings m1) <> "Critical Issues" ->
  Panel.statusLabel (analyzeWarnings m2) <> "Critical Issues".
Proof.
  intros Hface Hgt He Hc Hs Hok Hbad.
  apply Hok. apply status_critical_iff. apply status_critical_iff in Hbad.
  right. right. split; [done|].
  pose proof (gt_ge_trans _ _ _ Hgt He) as Hgt2.
  destruct Hbad as [Hbad|[Hbad|[_ Hbad]]].
  - congruence.
  - rewrite (gt_zero_not_strict_eq _ Hgt2) in Hbad. done.
  - destruct Hbad as [Hlt|[Hlt|Hlt]].
    + left. by eapply lt_ge_trans.
    + right. left. by eapply lt_ge_trans.
    + right. right. by eapply lt_ge_trans.
Qed.

Lemma X21_witness :
  Panel.statusLabel (analyzeWarnings all_good) <> "Critical Issues".
Proof.
  apply (X21_improvement_never_critical no_emotion_mapping all_good);
    try reflexivity.
  vm_compute. discriminate.
Defined.

(** ** The results page *)

(** When each bullet is shown. *)
Lemma bullet_conditions (finalResults : FinalResults) :
  ("• Maintained good eye contact" ∈ strengths finalResults
     <-> JS.ge (eye_contact_percentage finalResults) 70%float = true)
  /\ ("• Work on maintaining better eye contact" ∈ improvements finalResults
     <-> JS.lt (eye_contact_percentage finalResults) 70%float = true)
  /\ ("• Demonstrated high confidence" ∈ strengths finalResults
     <-> JS.ge (confidence_score finalResults) 0.7%float = true)
  /\ ("• Build confidence through practice" ∈ improvements finalResults
     <-> JS.lt (confidence_score finalResults) 0.7%float = true)
  /\ ("• Clear and articulate speech" ∈ strengths finalResults
     <-> JS.ge (speech_clarity finalResults) 0.7%float = true)
  /\ ("• Improve speech clarity and articulation" ∈ improvements finalResults
     <-> JS.lt (speech_clarity finalResults) 0.7%float = true)
  /\ ("• Excellent overall performance" ∈ strengths finalResults
     <-> JS.ge (overall_score finalResults) 80%float = true)
  /\ ("• Continue practicing interview skills" ∈ improvements finalResults
     <-> JS.lt (overall_score finalResults) 80%float = true).
Proof.
  rewrite !strengths_elem, !improvements_elem. decide_members.
  intuition congruence.
Qed.

Lemma one_bullet (finalResults : FinalResults) (value threshold : JS.number)
    (strength improvement : string) :
  is_number threshold ->
  (strength ∈ strengths finalResults <-> JS.ge value threshold = true) ->
  (improvement ∈ improvements finalResults <-> JS.lt value threshold = true) ->
  exactly_one_bullet finalResults value strength improvement.
Proof.
  intros Ht Hs Hi. unfold exactly_one_bullet. rewrite Hs, Hi. split; [|split].
  - intros [Hge Hlt]. apply ge_not_lt in Hge. congruence.
  - intros Hv. by apply ge_or_lt.
  - intros Hv. destruct (not_number value threshold Hv) as (-> & -> & _).
    split; discriminate.
Qed.

(** X22. For each of the four values of the report, the page never shows
    both its strength bullet and its improvement bullet; it shows one of
    them whenever the value is a number, and neither when it is not. *)
Theorem X22_one_bullet_per_metric (finalResults : FinalResults) :
  exactly_one_bullet finalResults (eye_contact_percentage finalResults)
    "• Maintained good eye contact" "• Work on maintaining better eye contact"
  /\ exactly_one_bullet finalResults (confidence_score finalResults)
       "• Demonstrated high confidence" "• Build confidence through practice"
  /\ exactly_one_bullet finalResults (speech_clarity finalResults)
       "• Clear and articulate speech" "• Improve speech clarity and articulation"
  /\ exactly_one_bullet finalResults (overall_score finalResults)
       "• Excellent overall performance" "• Continue practicing interview skills".
Proof.
  destruct (bullet_conditions finalResults)
    as (H1 & H2 & H3 & H4 & H5 & H6 & H7 & H8).
  split; [|split; [|split]].
  - exact (one_bullet _ _ 70%float _ _ eq_refl H1 H2).
  - exact (one_bullet _ _ 0.7%float _ _ eq_refl H3 H4).
  - exact (one_bullet _ _ 0.7%float _ _ eq_refl H5 H6).
  - exact (one_bullet _ _ 80%float _ _ eq_refl H7 H8).
Qed.

Lemma when_nil {A} (cond : bool) (items : list A) :
  when cond items = [] -> items <> [] -> cond = false.
Proof. by destruct cond. Qed.

(** X23. A report of numbers with an empty "Areas for Improvement" list
    shows all six strengths, and one with an empty "Strengths" list shows
    all four improvements. *)
Theorem X23_empty_list_fills_the_other (finalResults : FinalResults) :
  is_number (eye_contact_percentage finalResults) ->
  is_number (confidence_score finalResults) ->
  is_number (speech_clarity finalResults) ->
  is_number (overall_score finalResults) ->
  (improvements finalResults = [] ->
   strengths finalResults
   = ["• Excellent overall performance"; "• Strong communication skills";
      "• Good preparation and confidence"; "• Maintained good eye contact";
      "• Demonstrated high confidence"; "• Clear and articulate speech"])
  /\ (strengths finalResults = [] ->
      improvements finalResults
      = ["• Work on maintaining better eye contact";
         "• Build confidence through practice";
         "• Improve speech clarity and articulation";
         "• Continue practicing interview skills"]).
Proof.
  intros He Hc Hs Ho.
  pose proof (ge_or_lt _ 70%float He eq_refl) as He'.
  pose proof (ge_or_lt _ 0.7%float Hc eq_refl) as Hc'.
  pose proof (ge_or_lt _ 0.7%float Hs eq_refl) as Hs'.
  pose proof (ge_or_lt _ 80%float Ho eq_refl) as Ho'.
  unfold strengths, improvements. split; intros Hnil.
  - apply app_eq_nil in Hnil as [H1 Hnil]. apply app_eq_nil in Hnil as [H2 Hnil].
    apply app_eq_nil in Hnil as [H3 H4].
    apply when_nil in H1, H2, H3, H4; try done.
    destruct He' as [ -> | ? ], Hc' as [ -> | ? ], Hs' as [ -> | ? ], Ho' as [ -> | ? ];
      try congruence.
    reflexivity.
  - apply app_eq_nil in Hnil as [H1 Hnil]. apply app_eq_nil in Hnil as [H2 Hnil].
    apply app_eq_nil in Hnil as [H3 H4].
    apply when_nil in H1, H2, H3, H4; try done.
    destruct He' as [ ? | -> ], Hc' as [ ? | -> ], Hs' as [ ? | -> ], Ho' as [ ? | -> ];
      try congruence.
    reflexivity.
Qed.

Lemma X23_witness :
  strengths strong_report
  = ["• Excellent overall performance"; "• Strong communication skills";
     "• Good preparation and confidence"; "• Maintained good eye contact";
     "• Demonstrated high confidence"; "• Clear and articulate speech"].
Proof.
  apply (X23_empty_list_fills_the_other strong_report); reflexivity.
Defined.

(** X24. The level shown beside the overall score agrees with the
    bullets: it reads "Excellent" or "Very Good" exactly when the three
    overall strengths are listed, and the "Continue practicing" bullet
    goes with one of the three lower levels. *)
Theorem X24_level_matches_bullets (finalResults : FinalResults) :
  (Report.level (Report.getPerformanceLevel (overall_score finalResults)) = "Excellent"
   \/ Report.level (Report.getPerformanceLevel (overall_score finalResults)) = "Very Good"
   <-> "• Excellent overall performance" ∈ strengths finalResults)
  /\ ("• Continue practicing interview skills" ∈ improvements finalResults ->
      Report.level (Report.getPerformanceLevel (overall_score finalResults)) = "Good"
      \/ Report.level (Report.getPerformanceLevel (overall_score finalResults)) = "Fair"
      \/ Report.level (Report.getPerformanceLevel (overall_score finalResults))
         = "Needs Improvement").
Proof.
  destruct (bullet_conditions finalResults) as (_ & _ & _ & _ & _ & _ & -> & ->).
  unfold Report.getPerformanceLevel.
  destruct (JS.ge (overall_score finalResults) 90%float) eqn:H90.
  - assert (JS.ge (overall_score finalResults) 80%float = true) as H80
      by (by apply (ge_trans _ 90%float)).
    rewrite H80, (ge_not_lt _ _ H80). simpl. split; [split; auto | done].
  - destruct (JS.ge (overall_score finalResults) 80%float) eqn:H80.
    + rewrite (ge_not_lt _ _ H80). simpl. split; [split; auto | done].
    + split.
      * split; [|done].
        destruct (JS.ge (overall_score finalResults) 70%float),
          (JS.ge (overall_score finalResults) 60%float); simpl; intros [?|?]; done.
      * intros _.
        destruct (JS.ge (overall_score finalResults) 70%float),
          (JS.ge (overall_score finalResults) 60%float); simpl; auto.
Qed.

(** X25. The sentence under each metric card agrees with the bullets:
    it is the top sentence exactly when the strength bullet is listed,
    and whenever the improvement bullet is listed it is one of the two
    lower sentences. *)
Theorem X25_sentences_match_bullets (finalResults : FinalResults) :
  (Report.eyeContactText finalResults
     = "Excellent eye contact maintained throughout the interview."
   <-> "• Maintained good eye contact" ∈ strengths finalResults)
  /\ (Report.confidenceText finalResults = "High confidence demonstrated in responses."
      <-> "• Demonstrated high confidence" ∈ strengths finalResults)
  /\ (Report.speechText finalResults = "Clear and articulate speech throughout."
      <-> "• Clear and articulate speech" ∈ strengths finalResults)
  /\ ("• Work on maintaining better eye contact" ∈ improvements finalResults ->
      Report.eyeContactText finalResults = "Good eye contact, but could be improved."
      \/ Report.eyeContactText finalResults
         = "Eye contact needs significant improvement for better engagement.")
  /\ ("• Build confidence through practice" ∈ improvements finalResults ->
      Report.confidenceText finalResults = "Moderate confidence, room for improvement."
      \/ Report.confidenceText finalResults
         = "Confidence needs to be built through practice and preparation.")
  /\ ("• Improve speech clarity and articulation" ∈ improvements finalResults ->
      Report.speechText finalResults
      = "Generally clear speech with some areas for improvement."
      \/ Report.speechText finalResults
         = "Speech clarity needs improvement for better communication.").
Proof.
  destruct (bullet_conditions finalResults)
    as (-> & -> & -> & -> & -> & -> & _).
  unfold Report.eyeContactText, Report.confidenceText, Report.speechText.
  split; [|split; [|split; [|split; [|split]]]].
  - destruct (JS.ge (eye_contact_percentage finalResults) 70%float),
      (JS.ge (eye_contact_percentage finalResults) 50%float); done.
  - destruct (JS.ge (confidence_score finalResults) 0.7%float),
      (JS.ge (confidence_score finalResults) 0.5%float); done.
  - destruct (JS.ge (speech_clarity finalResults) 0.7%float),
      (JS.ge (speech_clarity finalResults) 0.5%float); done.
  - intros Hlt.
    destruct (JS.ge (eye_contact_percentage finalResults) 70%float) eqn:Hge;
      [apply ge_not_lt in Hge; congruence|].
    destruct (JS.ge (eye_contact_percentage finalResults) 50%float); auto.
  - intros Hlt.
    destruct (JS.ge (confidence_score finalResults) 0.7%float) eqn:Hge;
      [apply ge_not_lt in Hge; congruence|].
    destruct (JS.ge (confidence_score finalResults) 0.5%float); auto.
  - intros Hlt.
    destruct (JS.ge (speech_clarity finalResults) 0.7%float) eqn:Hge;
      [apply ge_not_lt in Hge; congruence|].
    destruct (JS.ge (speech_clarity finalResults) 0.5%float); auto.
Qed.

(** ** The setup page *)

Import Setup.

Lemma find_by_text (prev : list Question) (question : Question) :
  match List.find (λ q, String.eqb (Context.question q) (Context.question question)) prev with
  | Some _ => Context.question question ∈ texts prev
  | None => Context.question question ∉ texts prev
  end.
Proof.
  unfold texts.
  destruct (List.find _ prev) as [q|] eqn:Hfind.
  - apply find_some in Hfind as [Hin Heq]. apply String.eqb_eq in Heq.
    apply list_elem_of_fmap. exists q. split; [done|]. by apply list_elem_of_In.
  - intros (q & Heq & Hin)%list_elem_of_fmap.
    apply list_elem_of_In in Hin.
    pose proof (find_none _ _ Hfind q Hin) as Hne. simpl in Hne.
    apply String.eqb_neq in Hne. congruence.
Qed.

Lemma texts_filter_out (prev : list Question) (text t : string) :
  t ∈ texts (List.filter (λ q, negb (String.eqb (Context.question q) text)) prev)
  <-> t <> text /\ t ∈ texts prev.
Proof.
  unfold texts. rewrite !list_elem_of_fmap. split.
  - intros (q & -> & Hin). apply list_elem_of_In, filter_In in Hin as [Hin Hne].
    apply negb_true_iff, String.eqb_neq in Hne. split; [done|].
    exists q. split; [done|]. by apply list_elem_of_In.
  - intros [Hne (q & -> & Hin)]. exists q. split; [done|].
    apply list_elem_of_In, filter_In. split; [by apply list_elem_of_In|].
    by apply negb_true_iff, String.eqb_neq.
Qed.

(** X26. Toggling a question flips whether its text is selected and
    leaves every other text as it was. *)
Theorem X26_toggle_flips_one_text (prev : list Question) (question : Question) :
  (Context.question question ∈ texts (toggleQuestion prev question)
   <-> Context.question question ∉ texts prev)
  /\ (forall t, t <> Context.question question ->
        t ∈ texts (toggleQuestion prev question) <-> t ∈ texts prev).
Proof.
  unfold toggleQuestion. pose proof (find_by_text prev question) as Hfind.
  destruct (List.find _ prev) as [q|].
  - split.
    + rewrite texts_filter_out. tauto.
    + intros t Hne. rewrite texts_filter_out. tauto.
  - unfold texts in *. rewrite fmap_app. simpl. split.
    + rewrite elem_of_app, list_elem_of_singleton. tauto.
    + intros t Hne. rewrite elem_of_app, list_elem_of_singleton. tauto.
Qed.

Lemma filter_out_absent (prev : list Question) (text : string) :
  text ∉ texts prev ->
  List.filter (λ q, negb (String.eqb (Context.question q) text)) prev = prev.
Proof.
  unfold texts. induction prev as [|q prev IH]; simpl; [done|].
  rewrite not_elem_of_cons. intros [Hne Hnot].
  apply not_eq_sym, String.eqb_neq in Hne. rewrite Hne. simpl. by rewrite IH.
Qed.

Lemma texts_filter_NoDup (prev : list Question) (text : string) :
  NoDup (texts prev) ->
  NoDup (texts (List.filter (λ q, negb (String.eqb (Context.question q) text)) prev)).
Proof.
  unfold texts. induction prev as [|q prev IH]; simpl; [done|].
  rewrite NoDup_cons. intros [Hnot Hnd].
  destruct (negb (String.eqb (Context.question q) text)); simpl; [|by apply IH].
  apply NoDup_cons. split; [|by apply IH].
  intros Hin. apply Hnot. by apply (texts_filter_out prev text) in Hin as [_ ?].
Qed.

(** X27. Toggling keeps the selection free of repeated texts, and
    toggling a question that was not selected twice gives back the very
    selection. *)
Theorem X27_toggle_no_repeats (prev : list Question) (question : Question) :
  NoDup (texts prev) ->
  NoDup (texts (toggleQuestion prev question))
  /\ (Context.question question ∉ texts prev ->
      toggleQuestion (toggleQuestion prev question) question = prev).
Proof.
  intros Hnd. split.
  - unfold toggleQuestion. pose proof (find_by_text prev question) as Hfind.
    destruct (List.find _ prev) as [q|].
    + by apply texts_filter_NoDup.
    + unfold texts in *. rewrite fmap_app. simpl.
      apply NoDup_app. split; [done|]. split; [|apply NoDup_singleton].
      intros t Hin ->%list_elem_of_singleton. done.
  - intros Hnot. unfold toggleQuestion at 2.
    pose proof (find_by_text prev question) as Hfind.
    destruct (List.find _ prev) as [q|]; [done|].
    unfold toggleQuestion.
    pose proof (find_by_text (prev ++ [question]) question) as Hfind2.
    destruct (List.find _ (prev ++ [question])) as [q|].
    + rewrite List.filter_app. simpl. rewrite String.eqb_refl. simpl.
      rewrite app_nil_r. by apply filter_out_absent.
    + exfalso. apply Hfind2. unfold texts. rewrite fmap_app. simpl.
      apply elem_of_app. right. by apply list_elem_of_singleton.
Qed.

Lemma X27_witness :
  NoDup (texts (toggleQuestion (questions three_questions)
                  {| question := "What is a closure?"; Context.category := "technical";
                     difficulty := "medium" |})).
Proof.
  refine (proj1 (X27_toggle_no_repeats (questions three_questions) _ _)).
  apply (bool_decide_unpack _). vm_compute. exact I.
Defined.

Example run_toggle :
  texts (toggleQuestion (questions three_questions)
           {| question := "What is a closure?"; Context.category := "technical";
              difficulty := "medium" |})
  = ["Tell me about yourself."; "Describe a conflict you resolved."].
Proof. reflexivity. Qed.

(** ** The interview clock *)

(** Every time below 100 minutes, checked one by one. *)
Lemma clock_check : forallb clock_ok (seq 0 (100 * 60)) = true.
Proof. vm_compute. reflexivity. Qed.

Lemma clock_ok_below (seconds : nat) :
  (seconds < 100 * 60)%nat -> clock_ok seconds = true.
Proof.
  intros Hlt. pose proof clock_check as Hall.
  rewrite forallb_forall in Hall. apply Hall. apply in_seq. lia.
Qed.

(** X28. For the first 100 minutes the clock text has exactly five
    characters, MM:SS, and two different times never show the same text. *)
Theorem X28_clock_text (a b : nat) :
  (a < 100 * 60)%nat ->
  String.length (Panel.formatTime a) = 5%nat
  /\ readClock (Panel.formatTime a) = a
  /\ ((b < 100 * 60)%nat -> Panel.formatTime a = Panel.formatTime b -> a = b).
Proof.
  intros Ha. pose proof (clock_ok_below a Ha) as Hoka.
  unfold clock_ok in Hoka. apply andb_true_iff in Hoka as [Hlen Hread].
  apply Nat.eqb_eq in Hlen, Hread. split; [done|]. split; [done|].
  intros Hb Heq. pose proof (clock_ok_below b Hb) as Hokb.
  unfold clock_ok in Hokb. apply andb_true_iff in Hokb as [_ Hreadb].
  apply Nat.eqb_eq in Hreadb. congruence.
Qed.

Lemma X28_witness :
  String.length (Panel.formatTime 754) = 5%nat
  /\ readClock (Panel.formatTime 754) = 754%nat.
Proof.
  destruct (X28_clock_text 754 0) as (Hlen & Hread & _); [lia|].
  by split.
Defined.

Example run_clock :
  Panel.formatTime 0 = "00:00" /\ Panel.formatTime 754 = "12:34"
  /\ Panel.formatTime (100 * 60 - 1) = "99:59" /\ Panel.formatTime (100 * 60) = "100:00".
Proof. repeat split; reflexivity. Qed.
